(** * gif_creator.py: the frame sampler and the encoder selection of
      [VideoToGifConverter.create_gif], embedded in Rocq.

    Python's [float] is IEEE 754 binary64, which is Rocq's primitive [float];
    Python's [int] is unbounded, which is [Z]. Exceptions are an explicit
    result type, and the OpenCV capture (its seek position, the frames that
    were read) together with the console output and the call that writes the
    file are a state threaded through [create_gif]. What the libraries do
    when they are called is outside the source: [cv2.resize] refuses a
    target size that is not positive, and whether [Image.save] or
    [imageio.mimsave] returns or raises is an input of the conversion. *)

From Stdlib Require Import ZArith List Bool Lia Uint63 Floats.
From Stdlib Require String DecimalString.
Import ListNotations.

Local Open Scope Z_scope.

(** ** Exceptions *)

(** The exceptions of a conversion: the built-in ones that the arithmetic
    and the indexing of [create_gif] raise, [cv2.error] of OpenCV,
    [OSError] of the file system, and any other class that a library
    raises, by its name. *)
Inductive exn : Type :=
  | ValueError
  | ZeroDivisionError
  | OverflowError
  | IndexError
  | cv2_error
  | OSError
  | OtherException (class_name : String.string).

Inductive result (A : Type) : Type :=
  | Ok (a : A)
  | Raise (e : exn).

Arguments Ok {A} a.
Arguments Raise {A} e.

Definition rbind {A B : Type} (r : result A) (k : A -> result B) : result B :=
  match r with
  | Ok a => k a
  | Raise e => Raise e
  end.

Declare Scope result_scope.
Delimit Scope result_scope with result.
Notation "x <- r ;; k" := (rbind r (fun x => k))
  (at level 61, r at next level, right associativity) : result_scope.

(** ** Python numbers *)

Module Py.

(** [int(x)] for a float [x]: truncation toward zero; [ValueError] on a NaN
    and [OverflowError] on an infinity. A finite binary64 is
    [(-1)^s * m * 2^e]; shifting the mantissa truncates its magnitude. *)
Definition int_of_float (x : float) : result Z :=
  match Prim2SF x with
  | S754_nan => Raise ValueError
  | S754_infinity _ => Raise OverflowError
  | S754_zero _ => Ok 0
  | S754_finite s m e => Ok (cond_Zopp s (Z.shiftl (Zpos m) e))
  end.

(** The implicit [int -> float] conversion of mixed arithmetic: the nearest
    binary64 (ties to even), [OverflowError] when the integer is too large. *)
Definition float_of_int (z : Z) : result float :=
  match binary_normalize prec emax z 0 false with
  | S754_infinity _ | S754_nan => Raise OverflowError
  | sf => Ok (SF2Prim sf)
  end.

(** An integer as an unrounded binary float with exponent 0. *)
Definition exact_of_int (z : Z) : spec_float :=
  match z with
  | Z0 => S754_zero false
  | Zpos p => S754_finite false p 0
  | Zneg p => S754_finite true p 0
  end.

(** [a / b] on two ints (true division): [ZeroDivisionError] when [b] is 0,
    otherwise the exact quotient rounded once to binary64, and
    [OverflowError] when that is out of range. *)
Definition int_truediv (a b : Z) : result float :=
  if b =? 0 then Raise ZeroDivisionError
  else
    match SFdiv prec emax (exact_of_int a) (exact_of_int b) with
    | S754_infinity _ | S754_nan => Raise OverflowError
    | sf => Ok (SF2Prim sf)
    end.

(** [x * n] and [n * x] with [x] a float and [n] an int. *)
Definition float_mul_int (x : float) (n : Z) : result float :=
  (nf <- float_of_int n ;; Ok (x * nf)%float)%result.

Definition int_mul_float (n : Z) (x : float) : result float :=
  (nf <- float_of_int n ;; Ok (nf * x)%float)%result.

(** [x / y] on floats raises [ZeroDivisionError] on a zero divisor. *)
Definition float_truediv (x y : float) : result float :=
  if (y =? 0)%float then Raise ZeroDivisionError else Ok (x / y)%float.

(** [n / x] and [x / n] with [n] an int and [x] a float. *)
Definition int_div_float (n : Z) (x : float) : result float :=
  (nf <- float_of_int n ;; float_truediv nf x)%result.

Definition float_div_int (x : float) (n : Z) : result float :=
  (nf <- float_of_int n ;; float_truediv x nf)%result.

(** [min(a, b)] on floats: the first argument unless the second is
    strictly smaller. *)
Definition min_float (a b : float) : float :=
  if (b <? a)%float then b else a.

(** [range(n)]: 0, 1, ..., n-1, empty when [n <= 0]. *)
Definition range (n : Z) : list Z :=
  map Z.of_nat (seq 0 (Z.to_nat n)).

(** A list comprehension whose element expression can raise. *)
Fixpoint comprehension {A B : Type} (f : A -> result B) (l : list A)
  : result (list B) :=
  match l with
  | [] => Ok []
  | a :: l' =>
      (b <- f a ;; bs <- comprehension f l' ;; Ok (b :: bs))%result
  end.

End Py.

(** ** The external collaborators: OpenCV capture, PIL and imageio *)

Inductive color_order : Type := BGR | RGB.

(** A decoded frame (a numpy array of shape height x width x 3): the source
    frame it was decoded from, its dimensions and its channel order. *)
Record image : Type := {
  img_source : Z;
  img_width : Z;
  img_height : Z;
  img_order : color_order
}.

(** [cv2.cvtColor(frame, cv2.COLOR_BGR2RGB)]. *)
Definition cvtColor_BGR2RGB (f : image) : image :=
  {| img_source := img_source f; img_width := img_width f;
     img_height := img_height f; img_order := RGB |}.

(** [cv2.resize(frame, (w, h), interpolation=cv2.INTER_AREA)]: OpenCV
    refuses a target size with a width or a height that is not positive
    with [cv2.error]. *)
Definition resize (f : image) (w h : Z) : result image :=
  if (0 <? w) && (0 <? h)
  then Ok {| img_source := img_source f; img_width := w;
             img_height := h; img_order := img_order f |}
  else Raise cv2_error.

(** The call that writes the file: [Image.save] of PIL on the first frame,
    or [imageio.mimsave], each with the keyword arguments of the source. *)
Inductive gif_write : Type :=
  | PIL_save (first : image) (append_images : list image)
      (duration : float) (loop : Z) (optimize : bool) (quality : Z)
      (save_all : bool)
  | imageio_mimsave (frames : list image) (duration : float) (loop : Z).

(** What a conversion does to the outside world, in order. *)
Inductive event : Type :=
  | CapSet (frame_idx : Z)       (* cap.set(cv2.CAP_PROP_POS_FRAMES, idx) *)
  | CapRead (ret : bool)         (* cap.read() *)
  | Echo                         (* click.echo("Creating GIF...") *)
  | Write (w : gif_write).       (* the call of Image.save or mimsave *)

(** What a call of [Image.save] or of [imageio.mimsave] does once it is
    made: it returns, or it raises (a destination that cannot be written, a
    frame list the library refuses). This is decided by the libraries and
    the file system, so it is an input of [create_gif]. *)
Definition writer : Type := gif_write -> result unit.

(** The video behind [self.cap]: what [read()] returns at each position
    ([None] is [ret = False]). *)
Definition video : Type := Z -> option image.

Record world : Type := {
  cap_pos : Z;
  trace : list event
}.

(** ** Stateful computations that can raise *)

Definition M (A : Type) : Type := world -> result A * world.

Definition ret {A : Type} (a : A) : M A := fun w => (Ok a, w).

Definition bind {A B : Type} (m : M A) (k : A -> M B) : M B :=
  fun w =>
    match m w with
    | (Ok a, w') => k a w'
    | (Raise e, w') => (Raise e, w')
    end.

Definition lift {A : Type} (r : result A) : M A := fun w => (r, w).

Definition emit (e : event) : M unit :=
  fun w => (Ok tt, {| cap_pos := cap_pos w; trace := trace w ++ [e] |}).

Declare Scope M_scope.
Delimit Scope M_scope with M.
Notation "x <- m ;; k" := (bind m (fun x => k))
  (at level 61, m at next level, right associativity) : M_scope.
Notation "m ;; k" := (bind m (fun _ => k))
  (at level 61, right associativity) : M_scope.

(** A call of a writer: the call is made, and ends as the library ends
    it. *)
Definition call (save : writer) (c : gif_write) : M unit :=
  (emit (Write c) ;; lift (save c))%M.

(** [self.cap.set(cv2.CAP_PROP_POS_FRAMES, frame_idx)]. *)
Definition cap_set (frame_idx : Z) : M unit :=
  fun w => (Ok tt, {| cap_pos := frame_idx;
                      trace := trace w ++ [CapSet frame_idx] |}).

(** [ret, frame = self.cap.read()]: the frame at the current position; a
    successful read moves to the next frame. *)
Definition cap_read (v : video) : M (option image) :=
  fun w =>
    match v (cap_pos w) with
    | Some f => (Ok (Some f), {| cap_pos := cap_pos w + 1;
                                 trace := trace w ++ [CapRead true] |})
    | None => (Ok None, {| cap_pos := cap_pos w;
                           trace := trace w ++ [CapRead false] |})
    end.

(** ** VideoToGifConverter *)

(** The attributes [__init__] sets from the capture's properties. *)
Record VideoToGifConverter : Type := {
  cap : video;
  fps : float;
  total_frames : Z;
  width : Z;
  height : Z;
  duration : float
}.

(** [__init__], from the four properties [cap.get] reports (as doubles);
    a capture that is not opened raises [ValueError]. *)
Definition __init__ (opened : bool) (v : video)
    (prop_fps prop_frame_count prop_width prop_height : float)
  : result VideoToGifConverter :=
  if negb opened then Raise ValueError
  else
    (total <- Py.int_of_float prop_frame_count ;;
     w <- Py.int_of_float prop_width ;;
     h <- Py.int_of_float prop_height ;;
     d <- Py.int_div_float total prop_fps ;;
     Ok {| cap := v; fps := prop_fps; total_frames := total;
           width := w; height := h; duration := d |})%result.

(** *** create_gif, lines 58-68: the clamped stop time and the segment in
    source frames *)

Definition clamp_stop (self : VideoToGifConverter)
    (stop_time : option float) : float :=
  let stop_time := match stop_time with
                   | None => duration self
                   | Some t => t
                   end in
  Py.min_float stop_time (duration self).

Record segment : Type := {
  stop_time' : float;          (* [stop_time] after line 61 *)
  effective_duration : float;
  start_frame : Z;
  end_frame : Z;
  effective_frames : Z
}.

Definition time_parameters (self : VideoToGifConverter)
    (start_time : float) (stop_time : option float) : result segment :=
  let stop_time := clamp_stop self stop_time in
  if (stop_time <=? start_time)%float then Raise ValueError
  else
    (let effective_duration := (stop_time - start_time)%float in
     start_frame <- Py.int_of_float (start_time * fps self)%float ;;
     end_frame <- Py.int_of_float (stop_time * fps self)%float ;;
     Ok {| stop_time' := stop_time;
           effective_duration := effective_duration;
           start_frame := start_frame;
           end_frame := end_frame;
           effective_frames := end_frame - start_frame |})%result.

(** *** create_gif, lines 71-78: the resize target. [width] is
    [Optional[int]]; [None] and 0 are both falsy. *)

Record resize_target : Type := {
  scale_factor : float;
  new_width : Z;
  new_height : Z
}.

Definition truthy (width_arg : option Z) : bool :=
  match width_arg with
  | None => false
  | Some w => negb (w =? 0)
  end.

Definition resize_parameters (self : VideoToGifConverter)
    (width_arg : option Z) : result resize_target :=
  match width_arg with
  | Some w =>
      if truthy width_arg && (w <? width self) then
        (scale <- Py.int_truediv w (width self) ;;
         scaled <- Py.int_mul_float (height self) scale ;;
         nh <- Py.int_of_float scaled ;;
         Ok {| scale_factor := scale; new_width := w; new_height := nh |})%result
      else
        Ok {| scale_factor := 1; new_width := width self;
              new_height := height self |}
  | None =>
      Ok {| scale_factor := 1; new_width := width self;
            new_height := height self |}
  end.

(** *** create_gif, lines 81-87: the number of output frames, the sampling
    stride and the source frame of each output position *)

Record sampling : Type := {
  output_frames_count : Z;
  frame_interval : float;
  frame_indices : list Z
}.

Definition frame_index (start_frame effective_frames : Z)
    (frame_interval : float) (i : Z) : result Z :=
  (x <- Py.int_mul_float i frame_interval ;;
   k <- Py.int_of_float x ;;
   Ok (start_frame + Z.min k (effective_frames - 1)))%result.

Definition frame_sampling (start_frame effective_frames : Z)
    (duration_arg : float) (fps_arg : Z) : result sampling :=
  (x <- Py.float_mul_int duration_arg fps_arg ;;
   output_frames_count <- Py.int_of_float x ;;
   frame_interval <- Py.int_truediv effective_frames output_frames_count ;;
   frame_indices <-
     Py.comprehension
       (frame_index start_frame effective_frames frame_interval)
       (Py.range output_frames_count) ;;
   Ok {| output_frames_count := output_frames_count;
         frame_interval := frame_interval;
         frame_indices := frame_indices |})%result.

(** *** create_gif, lines 89-105: seek to each index, read, skip a failed
    read, convert the channel order, resize when the scale factor is not
    1.0 *)

Definition process_frame (self : VideoToGifConverter) (t : resize_target)
    (frames : list image) (frame_idx : Z) : M (list image) :=
  (cap_set frame_idx ;;
   r <- cap_read (cap self) ;;
   match r with
   | None => ret frames
   | Some frame =>
       let frame_rgb := cvtColor_BGR2RGB frame in
       frame_rgb <-
         (if negb (scale_factor t =? 1)%float
          then lift (resize frame_rgb (new_width t) (new_height t))
          else ret frame_rgb) ;;
       ret (frames ++ [frame_rgb])
   end)%M.

Fixpoint collect_frames (self : VideoToGifConverter) (t : resize_target)
    (frames : list image) (indices : list Z) : M (list image) :=
  match indices with
  | [] => ret frames
  | frame_idx :: rest =>
      (frames' <- process_frame self t frames frame_idx ;;
       collect_frames self t frames' rest)%M
  end.

(** *** _save_optimized_gif, lines 126-142; [pil_frames[0]] raises
    [IndexError] on an empty list *)

Definition _save_optimized_gif (save : writer) (frames : list image)
    (frame_duration : float) : M unit :=
  match frames with
  | [] => lift (Raise IndexError)
  | first :: rest =>
      call save (PIL_save first rest (frame_duration * 1000)%float
                   0 true 85 true)
  end.

(** *** create_gif *)

(** The local variables of [create_gif] at its [return]; the embedding
    returns them in place of [output_path], which is the argument itself. *)
Record locals : Type := {
  seg : segment;
  target : resize_target;
  samp : sampling;
  frames : list image;
  frame_duration : float
}.

(** [pil_available] is the outcome of [self._check_pil_available()], that
    is, whether [import PIL] succeeds; [save] is what the two writers do
    when they are called. *)
Definition create_gif (self : VideoToGifConverter) (pil_available : bool)
    (save : writer) (duration_arg : float) (width_arg : option Z)
    (fps_arg : Z) (start_time : float) (stop_time : option float)
    (optimize : bool)
  : M locals :=
  (s <- lift (time_parameters self start_time stop_time) ;;
   t <- lift (resize_parameters self width_arg) ;;
   p <- lift (frame_sampling (start_frame s) (effective_frames s)
                duration_arg fps_arg) ;;
   frames <- collect_frames self t [] (frame_indices p) ;;
   emit Echo ;;
   frame_duration <- lift (Py.float_div_int 1 fps_arg) ;;
   (if optimize && pil_available
    then _save_optimized_gif save frames frame_duration
    else call save (imageio_mimsave frames frame_duration 0)) ;;
   ret {| seg := s; target := t; samp := p; frames := frames;
          frame_duration := frame_duration |})%M.

(** A fresh converter has not touched its capture yet. *)
Definition initial_world : world := {| cap_pos := 0; trace := [] |}.

(** ** Sources and requests used in the examples *)

(** A video whose [n] frames all decode to [w] x [h] pictures in OpenCV's
    BGR order. *)
Definition uniform_video (w h n : Z) : video :=
  fun i =>
    if (0 <=? i) && (i <? n)
    then Some {| img_source := i; img_width := w; img_height := h;
                 img_order := BGR |}
    else None.

(** Writers that return, whatever they are given. *)
Definition saves : writer := fun _ => Ok tt.

(** Writers that raise [e], whatever they are given. *)
Definition refuses (e : exn) : writer := fun _ => Raise e.

(** 120 seconds of 1920x1080 at 30 frames per second. *)
Definition hd_source : VideoToGifConverter :=
  {| cap := uniform_video 1920 1080 3600; fps := 30; total_frames := 3600;
     width := 1920; height := 1080; duration := 120 |}.

(** ** The formulas of the specification, for comparison *)

Module Spec.

(** The integer nearest to [p / q] for [q > 0], ties to the even one
    (what [round] gives on the exact quotient). *)
Definition round_ratio (p q : Z) : Z :=
  let f := p / q in
  match 2 * (p mod q) ?= q with
  | Lt => f
  | Gt => f + 1
  | Eq => if Z.even f then f else f + 1
  end.

(** [round(x)] on a float. *)
Definition round (x : float) : result Z :=
  match Prim2SF x with
  | S754_nan => Raise ValueError
  | S754_infinity _ => Raise OverflowError
  | S754_zero _ => Ok 0
  | S754_finite s m e =>
      Ok (cond_Zopp s
            (match e with
             | Zneg n => round_ratio (Zpos m) (2 ^ Zpos n)
             | _ => Z.shiftl (Zpos m) e
             end))
  end.

(** "scale = maxWidth / metadata.width,
    newHeight = round(metadata.height * scale)", on doubles. *)
Definition newHeight (self : VideoToGifConverter) (maxWidth : Z)
  : result Z :=
  (scale <- Py.int_truediv maxWidth (width self) ;;
   scaled <- Py.int_mul_float (height self) scale ;;
   round scaled)%result.

(** "round(sourceHeight * maxWidth / sourceWidth)", on the exact quotient. *)
Definition newHeight_exact (self : VideoToGifConverter) (maxWidth : Z) : Z :=
  round_ratio (height self * maxWidth) (width self).

(** "floor(x)" on a float; [Z.shiftl] by a negative amount is the floor of
    the division by a power of two. *)
Definition floor (x : float) : result Z :=
  match Prim2SF x with
  | S754_nan => Raise ValueError
  | S754_infinity _ => Raise OverflowError
  | S754_zero _ => Ok 0
  | S754_finite s m e => Ok (Z.shiftl (cond_Zopp s (Zpos m)) e)
  end.

(** "effectiveFrames = round((stopTime - startTime) * metadata.fps)". *)
Definition effectiveFrames (self : VideoToGifConverter)
    (startTime stopTime : float) : result Z :=
  round ((stopTime - startTime) * fps self)%float.

End Spec.

(** ** Binary64 quantities used in the proofs *)

(** The number of binary digits of a mantissa. *)
Definition digits (m : positive) : Z := Zpos (digits2_pos m).

(** The largest finite double, [sys.float_info.max], as an integer. *)
Definition max_double : Z := (2 ^ 53 - 1) * 2 ^ 971.

(** A double that is not below zero (a NaN is not). *)
Definition not_negative (x : spec_float) : Prop :=
  match x with
  | S754_zero _ | S754_nan => True
  | S754_infinity s | S754_finite s _ _ => s = false
  end.

(** ** The frame loop as a list computation *)

(** What lines 98 to 103 make of a decoded frame. *)
Definition output_frame (t : resize_target) (frame : image) : result image :=
  if negb (scale_factor t =? 1)%float
  then resize (cvtColor_BGR2RGB frame) (new_width t) (new_height t)
  else Ok (cvtColor_BGR2RGB frame).

(** Whether [cv2.resize] is called with a target it refuses. *)
Definition target_refused (t : resize_target) : bool :=
  negb (scale_factor t =? 1)%float
  && negb ((0 <? new_width t) && (0 <? new_height t)).

(** The positions up to the first one that can be read, with it. *)
Fixpoint through_first_readable (v : video) (indices : list Z) : list Z :=
  match indices with
  | [] => []
  | idx :: rest =>
      match v idx with
      | Some _ => [idx]
      | None => idx :: through_first_readable v rest
      end
  end.

(** The frames of the video at the given positions, in order, without the
    positions that cannot be read. *)
Definition decoded (v : video) (indices : list Z) : list image :=
  flat_map (fun idx => match v idx with Some f => [f] | None => [] end)
    indices.

(** One seek and one read per position. *)
Definition seeks_and_reads (v : video) (indices : list Z) : list event :=
  flat_map
    (fun idx => [CapSet idx;
                 CapRead (match v idx with Some _ => true | None => false end)])
    indices.

(** Where the capture stands after these seeks and reads. *)
Definition position_after (v : video) (pos : Z) (indices : list Z) : Z :=
  fold_left
    (fun _ idx => match v idx with Some _ => idx + 1 | None => idx end)
    indices pos.

(** Whether an event writes the output file. *)
Definition is_write (e : event) : bool :=
  match e with
  | Write _ => true
  | _ => false
  end.

(** ** format_size (lines 145-151) *)

Module Text.

Import String.
Local Open Scope string_scope.

(** [str(n)] for an int. *)
Definition str_int (z : Z) : string :=
  DecimalString.NilZero.string_of_int (Z.to_int z).

(** The integer nearest to [p / q] for [q > 0], ties to the even one. *)
Definition round_half_even (p q : Z) : Z :=
  let f := p / q in
  match 2 * (p mod q) ?= q with
  | Lt => f
  | Gt => f + 1
  | Eq => if Z.even f then f else f + 1
  end.

(** A number of tenths as digits, a point and one digit. *)
Definition one_decimal (tenths : Z) : string :=
  str_int (tenths / 10) ++ "." ++ str_int (tenths mod 10).

(** [format(x, '.1f')] for a float: the exact value of the double rounded
    to one decimal, ties to even, the sign kept even on a zero. *)
Definition format_1f (x : float) : string :=
  match Prim2SF x with
  | S754_nan => "nan"
  | S754_infinity s => if s then "-inf" else "inf"
  | S754_zero s => if s then "-0.0" else "0.0"
  | S754_finite s m e =>
      (if s then "-" else "")
      ++ one_decimal
           (match e with
            | Zneg n => round_half_even (10 * Zpos m) (2 ^ Zpos n)
            | _ => 10 * Z.shiftl (Zpos m) e
            end)
  end.

(** [size_bytes] is an int on entry and a float after the first division. *)
Inductive number : Type :=
  | Int (n : Z)
  | Float (x : float).

(** [size_bytes < 1024.0]; Python compares an int with a float exactly. *)
Definition lt_1024 (size_bytes : number) : bool :=
  match size_bytes with
  | Int n => (n <? 1024)%Z
  | Float x => (x <? 1024)%float
  end.

(** [size_bytes /= 1024.0]. *)
Definition div_1024 (size_bytes : number) : result float :=
  match size_bytes with
  | Int n => Py.int_div_float n 1024
  | Float x => Py.float_truediv x 1024
  end.

(** The f-string [f"{size_bytes:.1f} {unit}"]; an int is converted to a
    float by the format. *)
Definition show (size_bytes : number) (unit : string) : result string :=
  match size_bytes with
  | Int n =>
      (x <- Py.float_of_int n ;; Ok (format_1f x ++ " " ++ unit))%result
  | Float x => Ok (format_1f x ++ " " ++ unit)
  end.

(** The [for] loop over the units, with the [return] after it. *)
Fixpoint format_size_from (units : list string) (size_bytes : number)
  : result string :=
  match units with
  | [] => show size_bytes "TB"
  | unit :: units' =>
      if lt_1024 size_bytes then show size_bytes unit
      else
        (x <- div_1024 size_bytes ;; format_size_from units' (Float x))%result
  end.

Definition format_size (size_bytes : Z) : result string :=
  format_size_from ["B"; "KB"; "MB"; "GB"] (Int size_bytes).

(** The power of 1024 and the unit that go with a size. *)
Definition size_exponent (n : Z) : Z :=
  if (n <? 1024)%Z then 0
  else if (n <? 1024 ^ 2)%Z then 1
  else if (n <? 1024 ^ 3)%Z then 2
  else if (n <? 1024 ^ 4)%Z then 3
  else 4.

Definition size_unit (n : Z) : string :=
  if (n <? 1024)%Z then "B"
  else if (n <? 1024 ^ 2)%Z then "KB"
  else if (n <? 1024 ^ 3)%Z then "MB"
  else if (n <? 1024 ^ 4)%Z then "GB"
  else "TB".

End Text.

(** ** The command line (lines 39-46 and 169-264) *)

Module Cli.

Import String.

(** [get_video_info]: the dict, by its four keys. *)
Record video_info : Type := {
  info_duration : float;
  info_fps : float;
  info_resolution : string;
  info_total_frames : Z
}.

Definition get_video_info (self : VideoToGifConverter) : video_info :=
  {| info_duration := duration self;
     info_fps := fps self;
     info_resolution :=
       (Text.str_int (width self) ++ "x" ++ Text.str_int (height self))%string;
     info_total_frames := total_frames self |}.

(** The parameters click passes to the command. *)
Record arguments : Type := {
  video_file : string;
  output_file : option string;
  arg_duration : float;
  arg_width : option Z;
  arg_fps : Z;
  arg_start_time : float;
  arg_stop_time : option float;
  no_optimize : bool;
  info : bool
}.

(** What the command finds outside: for the path [value] of the input,
    pathlib's [Path(value).exists()], [Path(value).suffix.lower()] and
    [str(Path(value))]; the capture OpenCV opens for the file; whether PIL
    can be imported; what the writers do when they are called; pathlib's
    [with_suffix('.gif')]; and the size [os.path.getsize] reports for a path
    once the conversion is over ([None] when it raises [OSError]). *)
Record environment : Type := {
  path_exists : string -> bool;
  path_suffix_lower : string -> string;
  path_str : string -> string;
  capture_opened : bool;
  capture_video : video;
  capture_fps : float;
  capture_frame_count : float;
  capture_width : float;
  capture_height : float;
  pil_installed : bool;
  write_gif : writer;
  with_suffix_gif : string -> string;
  getsize : string -> option Z
}.

(** The two complaints of [validate_video_file], each a
    [click.BadParameter]. *)
Inductive bad_parameter : Type :=
  | FileNotFound (value : string)   (* "File not found: {value}" *)
  | NotAVideo.       (* "File must be a video (mp4, avi, mov, mkv, webm)" *)

(** [validate_video_file], lines 154-166, the callback of the argument
    [video_file]: an empty value is returned as it is. *)
Definition validate_video_file (env : environment) (value : string)
  : bad_parameter + string :=
  match value with
  | EmptyString => inr value
  | _ =>
      if negb (path_exists env value) then inl (FileNotFound value)
      else if negb (existsb (String.eqb (path_suffix_lower env value))
                      [".mp4"; ".avi"; ".mov"; ".mkv"; ".webm"]%string)
      then inl NotAVideo
      else inr (path_str env value)
  end.

Inductive tip : Type :=
  | TipWidth          (* "Try --width 400 or --width 300" *)
  | TipFps            (* "Try --fps 8 or --fps 5" *)
  | TipDuration       (* "Try --duration 3" *)
  | TipSegment.       (* "Use --start and --stop to select a shorter segment" *)

(** The blocks of output of the command, each with the values it shows. *)
Inductive line : Type :=
  | VideoInformation (file : string) (i : video_info)   (* lines 204-209 *)
  | ConversionPlan (input : string)                     (* lines 223-232 *)
      (start_time effective_stop segment_duration : float)
      (output : string) (gif_duration speed_factor : float)
      (max_width : option Z) (fps : Z)
  | Success (output_path : string)                      (* line 247 *)
  | FileSize (size : string)                            (* line 248 *)
  | Tips (tips : list tip)                              (* lines 252-260 *)
  | Error (e : exn)                                     (* line 263 *)
  | UsageError (why : bad_parameter).   (* click's report of a BadParameter *)

(** The exit status, what was printed, and what was done to the capture
    and the output file. *)
Record outcome : Type := {
  status : Z;
  console : list line;
  capture : world
}.

(** The [except] branch: print the error, [sys.exit(1)]. *)
Definition failed (printed : list line) (w : world) (e : exn) : outcome :=
  {| status := 1; console := printed ++ [Error e]; capture := w |}.

(** [stop_time if stop_time else video_info['duration']]: [None] and 0.0
    are falsy. *)
Definition effective_stop_of (stop_time : option float) (i : video_info)
  : float :=
  match stop_time with
  | Some t => if (t =? 0)%float then info_duration i else t
  | None => info_duration i
  end.

(** [output_file], or the input with the suffix [.gif] when it is [None] or
    empty. *)
Definition output_file_of (env : environment) (a : arguments) : string :=
  match output_file a with
  | Some EmptyString | None => with_suffix_gif env (video_file a)
  | Some s => s
  end.

(** Lines 251-260. *)
Definition tips_for (a : arguments) (segment_duration : float)
    (file_size : Z) : list line :=
  if (2 * 1024 * 1024 <? file_size)%Z then
    [Tips
       ((if negb (truthy (arg_width a))
            || match arg_width a with
               | Some w => (400 <? w)%Z
               | None => false
               end
         then [TipWidth] else [])
        ++ (if (8 <? arg_fps a)%Z then [TipFps] else [])
        ++ (if (3 <? arg_duration a)%float then [TipDuration] else [])
        ++ (if (60 <? segment_duration)%float then [TipSegment] else []))]
  else [].

(** [VideoToGifConverter(video_file)], line 199. *)
Definition converter_of (env : environment) : result VideoToGifConverter :=
  __init__ (capture_opened env) (capture_video env) (capture_fps env)
    (capture_frame_count env) (capture_width env) (capture_height env).

(** The body of the command [create_gif]. *)
Definition command (env : environment) (a : arguments) : outcome :=
  match converter_of env with
  | Raise e => failed [] initial_world e
  | Ok converter =>
      if info a then
        {| status := 0;
           console := [VideoInformation (video_file a)
                         (get_video_info converter)];
           capture := initial_world |}
      else
        let output_file := output_file_of env a in
        let video_info := get_video_info converter in
        let effective_stop := effective_stop_of (arg_stop_time a) video_info in
        let segment_duration := (effective_stop - arg_start_time a)%float in
        match Py.float_truediv segment_duration (arg_duration a) with
        | Raise e => failed [] initial_world e
        | Ok speed_factor =>
            let plan :=
              [ConversionPlan (video_file a) (arg_start_time a)
                 effective_stop segment_duration output_file
                 (arg_duration a) speed_factor
                 (if truthy (arg_width a) then arg_width a else None)
                 (arg_fps a)] in
            match create_gif converter (pil_installed env) (write_gif env)
                    (arg_duration a) (arg_width a) (arg_fps a)
                    (arg_start_time a) (arg_stop_time a)
                    (negb (no_optimize a)) initial_world
            with
            | (Raise e, w) => failed plan w e
            | (Ok _, w) =>
                match getsize env output_file with
                | None => failed plan w OSError
                | Some file_size =>
                    match Text.format_size file_size with
                    | Raise e =>
                        failed (plan ++ [Success output_file]) w e
                    | Ok size =>
                        {| status := 0;
                           console :=
                             plan ++ [Success output_file; FileSize size]
                             ++ tips_for a segment_duration file_size;
                           capture := w |}
                    end
                end
            end
        end
  end.

(** The command as click runs it on the values it has parsed: the callback
    of [video_file] first. A [click.BadParameter] is a usage error: click
    reports it and exits with status 2, and the body is not entered.
    Otherwise the body gets the value the callback returns. *)
Definition main (env : environment) (a : arguments) : outcome :=
  match validate_video_file env (video_file a) with
  | inl why =>
      {| status := 2; console := [UsageError why]; capture := initial_world |}
  | inr value =>
      command env
        {| video_file := value;
           output_file := output_file a;
           arg_duration := arg_duration a;
           arg_width := arg_width a;
           arg_fps := arg_fps a;
           arg_start_time := arg_start_time a;
           arg_stop_time := arg_stop_time a;
           no_optimize := no_optimize a;
           info := info a |}
  end.

(** A source and a request for the examples: the 120 s, 30 fps, 1920x1080
    video in an existing file, PIL installed, writers that return, a
    3 000 000 byte result. *)
Definition sample_environment : environment :=
  {| path_exists := fun _ => true;
     path_suffix_lower := fun _ => ".mp4"%string;
     path_str := fun value => value;
     capture_opened := true;
     capture_video := uniform_video 1920 1080 3600;
     capture_fps := 30;
     capture_frame_count := 3600;
     capture_width := 1920;
     capture_height := 1080;
     pil_installed := true;
     write_gif := saves;
     with_suffix_gif := fun _ => "video.gif"%string;
     getsize := fun _ => Some 3000000 |}.

(** The same, with an input file that does not exist. *)
Definition missing_file_environment : environment :=
  {| path_exists := fun _ => false;
     path_suffix_lower := path_suffix_lower sample_environment;
     path_str := path_str sample_environment;
     capture_opened := false;
     capture_video := fun _ => None;
     capture_fps := 0;
     capture_frame_count := 0;
     capture_width := 0;
     capture_height := 0;
     pil_installed := pil_installed sample_environment;
     write_gif := write_gif sample_environment;
     with_suffix_gif := with_suffix_gif sample_environment;
     getsize := fun _ => None |}.

(** The same as the sample, with a destination that cannot be written:
    the writers raise [OSError]. *)
Definition read_only_environment : environment :=
  {| path_exists := path_exists sample_environment;
     path_suffix_lower := path_suffix_lower sample_environment;
     path_str := path_str sample_environment;
     capture_opened := capture_opened sample_environment;
     capture_video := capture_video sample_environment;
     capture_fps := capture_fps sample_environment;
     capture_frame_count := capture_frame_count sample_environment;
     capture_width := capture_width sample_environment;
     capture_height := capture_height sample_environment;
     pil_installed := pil_installed sample_environment;
     write_gif := refuses OSError;
     with_suffix_gif := with_suffix_gif sample_environment;
     getsize := getsize sample_environment |}.

(** [email-gif video.mp4 -d 0.25 --start 30 --stop 90]. *)
Definition sample_arguments : arguments :=
  {| video_file := "video.mp4"%string;
     output_file := None;
     arg_duration := 0.25;
     arg_width := None;
     arg_fps := 10;
     arg_start_time := 30;
     arg_stop_time := Some 90%float;
     no_optimize := false;
     info := false |}.

End Cli.

(** ** The Python numbers on examples *)

Example int_truncates_toward_zero :
  Py.int_of_float 168.75 = Ok 168 /\ Py.int_of_float (-168.75) = Ok (-168).
Proof. split; vm_compute; reflexivity. Qed.

Example int_of_infinity_and_nan :
  Py.int_of_float infinity = Raise OverflowError
  /\ Py.int_of_float nan = Raise ValueError.
Proof. split; vm_compute; reflexivity. Qed.

Example float_of_int_rounds_to_even :
  Py.float_of_int (2 ^ 53 + 1) = Ok 9007199254740992%float
  /\ Py.float_of_int (2 ^ 53 + 3) = Ok 9007199254740996%float
  /\ Py.float_of_int (2 ^ 1024) = Raise OverflowError.
Proof. repeat split; vm_compute; reflexivity. Qed.

Example int_truediv_is_float_division_on_small_ints :
  Py.int_truediv 300 1920 = Ok (300 / 1920)%float
  /\ Py.int_truediv 1 3 = Ok (1 / 3)%float
  /\ Py.int_truediv 1800 30 = Ok 60%float
  /\ Py.int_truediv 3600 0 = Raise ZeroDivisionError.
Proof. repeat split; vm_compute; reflexivity. Qed.

Example range_5 : Py.range 5 = [0; 1; 2; 3; 4] /\ Py.range (-2) = [].
Proof. split; reflexivity. Qed.

(** ** Rounding an integer to binary64 *)


(** A mantissa of [d] digits lies in [2^(d-1), 2^d). *)
Lemma digits_bounds m : 2 ^ (digits m - 1) <= Zpos m < 2 ^ digits m.
Proof.
  unfold digits. induction m as [m IH|m IH|]; simpl digits2_pos.
  - rewrite Pos2Z.inj_succ.
    replace (Z.succ (Zpos (digits2_pos m)) - 1) with (Z.succ (Zpos (digits2_pos m) - 1)) by lia.
    rewrite !Z.pow_succ_r by lia. lia.
  - rewrite Pos2Z.inj_succ.
    replace (Z.succ (Zpos (digits2_pos m)) - 1) with (Z.succ (Zpos (digits2_pos m) - 1)) by lia.
    rewrite !Z.pow_succ_r by lia. lia.
  - simpl. lia.
Qed.

(** ... and that interval determines the number of digits. *)
Lemma digits_unique m n : 2 ^ (n - 1) <= Zpos m < 2 ^ n -> digits m = n.
Proof.
  intros [Hlo Hhi]. pose proof (digits_bounds m) as [Dlo Dhi].
  assert (Hd : 0 < digits m) by (unfold digits; lia).
  destruct (Z.lt_trichotomy (digits m) n) as [Hlt|[Heq|Hgt]]; [|exact Heq|].
  - assert (2 ^ digits m <= 2 ^ (n - 1)) by (apply Z.pow_le_mono_r; lia). lia.
  - assert (0 <= n \/ n < 0) as [Hn|Hn] by lia.
    + assert (2 ^ n <= 2 ^ (digits m - 1)) by (apply Z.pow_le_mono_r; lia). lia.
    + rewrite (Z.pow_neg_r 2 n) in Hhi by lia. lia.
Qed.

(** One step of the right shift halves the mantissa. *)
Lemma shr_1_m r : 0 <= shr_m r -> shr_m (shr_1 r) = shr_m r / 2.
Proof.
  destruct r as [m rb sb]. simpl. intros Hm.
  destruct m as [|[p|p|]|p]; try lia; cbn [shr_m].
  - reflexivity.
  - apply Z.div_unique with (r := 1); lia.
  - apply Z.div_unique with (r := 0); lia.
  - reflexivity.
Qed.

(** [n] steps divide it by [2^n]. *)
Lemma iter_shr_1_m n : forall r,
  0 <= shr_m r -> shr_m (iter_pos shr_1 n r) = shr_m r / 2 ^ Zpos n.
Proof.
  assert (Hstep : forall r, 0 <= shr_m r -> 0 <= shr_m (shr_1 r)).
  { intros r Hr. rewrite shr_1_m by exact Hr. apply Z.div_pos; lia. }
  induction n as [n IH|n IH|]; intros r Hr; simpl iter_pos.
  - assert (H1 := Hstep r Hr).
    assert (H2 : 0 <= shr_m (iter_pos shr_1 n (shr_1 r))).
    { rewrite IH by exact H1. apply Z.div_pos; [exact H1|]. apply Z.pow_pos_nonneg; lia. }
    rewrite IH by exact H2. rewrite IH by exact H1. rewrite shr_1_m by exact Hr.
    rewrite !Z.div_div by (try apply Z.pow_pos_nonneg; lia).
    f_equal. replace (Zpos n~1) with (1 + Zpos n + Zpos n) by lia.
    rewrite !Z.pow_add_r by lia. lia.
  - assert (H2 : 0 <= shr_m (iter_pos shr_1 n r)).
    { rewrite IH by exact Hr. apply Z.div_pos; [exact Hr|]. apply Z.pow_pos_nonneg; lia. }
    rewrite IH by exact H2. rewrite IH by exact Hr.
    rewrite !Z.div_div by (try apply Z.pow_pos_nonneg; lia).
    f_equal. replace (Zpos n~0) with (Zpos n + Zpos n) by lia.
    rewrite !Z.pow_add_r by lia. lia.
  - rewrite shr_1_m by exact Hr. reflexivity.
Qed.

Lemma shr_m_of_loc m l : shr_m (shr_record_of_loc m l) = m.
Proof. destruct l as [|[| |]]; reflexivity. Qed.

Lemma loc_of_shr_record_of_loc m l :
  loc_of_shr_record (shr_record_of_loc m l) = l.
Proof. destruct l as [|[| |]]; reflexivity. Qed.

Lemma round_nearest_even_cases m l :
  round_nearest_even m l = m \/ round_nearest_even m l = m + 1.
Proof.
  destruct l as [|[| |]]; simpl; auto. destruct (Z.even m); auto.
Qed.

(** The exponent of a number in the normal range of binary64. *)
Lemma fexp_normal x : -1074 <= x - 53 -> fexp prec emax x = x - 53.
Proof. unfold fexp, SpecFloat.emin, prec, emax. lia. Qed.

(** Bringing a mantissa of at least 53 digits down to 53. *)
Lemma shr_fexp_pos m e l :
  -1074 <= e -> 53 <= digits m ->
  exists r,
    shr_fexp prec emax (Zpos m) e l = (r, e + (digits m - 53))
    /\ shr_m r = Zpos m / 2 ^ (digits m - 53)
    /\ (digits m = 53 -> loc_of_shr_record r = l).
Proof.
  intros He Hd. unfold shr_fexp. simpl Zdigits2. fold (digits m).
  rewrite fexp_normal by lia.
  replace (digits m + e - 53 - e) with (digits m - 53) by lia.
  destruct (digits m - 53) as [|k|k] eqn:Hk; try lia; unfold shr.
  - exists (shr_record_of_loc (Zpos m) l). rewrite Z.add_0_r. split; [reflexivity|].
    rewrite shr_m_of_loc. split; [rewrite Z.div_1_r; reflexivity|].
    intros _. apply loc_of_shr_record_of_loc.
  - eexists. split; [reflexivity|]. split.
    + rewrite iter_shr_1_m; rewrite shr_m_of_loc; [reflexivity | lia].
    + lia.
Qed.

Lemma div_pow2_bounds m k :
  0 <= k -> 2 ^ (52 + k) <= m < 2 ^ (53 + k) ->
  2 ^ 52 <= m / 2 ^ k < 2 ^ 53.
Proof.
  intros Hk [Hlo Hhi]. rewrite Z.pow_add_r in Hlo, Hhi by lia.
  assert (Hp : 0 < 2 ^ k) by (apply Z.pow_pos_nonneg; lia).
  split.
  - apply Z.div_le_lower_bound; lia.
  - apply Z.div_lt_upper_bound; lia.
Qed.

(** Rounding a mantissa of at least 53 digits gives a finite double in
    canonical form, unless the exponent is too large; at the largest
    exponent the mantissa must leave room for the round-up. *)
Lemma binary_round_aux_finite s m e l :
  53 <= digits m -> -1074 <= e ->
  (e + (digits m - 53) <= 970
   \/ (e + (digits m - 53) = 971
       /\ Zpos m / 2 ^ (digits m - 53) < 2 ^ 53 - 1)) ->
  exists q e',
    binary_round_aux prec emax s (Zpos m) e l = S754_finite s q e'
    /\ valid_binary (S754_finite s q e') = true.
Proof.
  intros Hd He Hfit.
  destruct (shr_fexp_pos m e l He Hd) as (r & Hr & Hm & _).
  unfold binary_round_aux. rewrite Hr. cbv iota beta.
  set (k := digits m - 53) in *.
  assert (Hm1 : 2 ^ 52 <= shr_m r < 2 ^ 53).
  { rewrite Hm. apply div_pow2_bounds; [lia|].
    pose proof (digits_bounds m) as Hb.
    replace (52 + k) with (digits m - 1) by lia.
    replace (53 + k) with (digits m) by lia. exact Hb. }
  assert (H52 : 0 < 2 ^ 52) by (apply Z.pow_pos_nonneg; lia).
  assert (H53 : 2 ^ 53 = 2 * 2 ^ 52) by (change 53 with (Z.succ 52); apply Z.pow_succ_r; lia).
  assert (H54 : 2 ^ 54 = 2 * 2 ^ 53) by (change 54 with (Z.succ 53); apply Z.pow_succ_r; lia).
  destruct (round_nearest_even (shr_m r) (loc_of_shr_record r)) as [|q|q] eqn:Hq;
    pose proof (round_nearest_even_cases (shr_m r) (loc_of_shr_record r)) as Hc;
    rewrite Hq in Hc; try lia.
  assert (Hdq : digits q = 53 \/ (digits q = 54 /\ Zpos q = 2 ^ 53)).
  { destruct (Z.lt_ge_cases (Zpos q) (2 ^ 53)) as [Hlt|Hge].
    - left. apply digits_unique. change (53 - 1) with 52. lia.
    - right. split; [|lia]. apply digits_unique. change (54 - 1) with 53. lia. }
  assert (He' : -1074 <= e + k) by lia.
  assert (Hd' : 53 <= digits q) by lia.
  destruct (shr_fexp_pos q (e + k) loc_Exact He' Hd') as (r2 & Hr2 & Hm2 & _).
  rewrite Hr2. cbv iota beta.
  assert (Hq' : 2 ^ 52 <= shr_m r2 < 2 ^ 53).
  { rewrite Hm2. destruct Hdq as [Hdq|[Hdq Hqv]]; rewrite Hdq.
    - pose proof (digits_bounds q) as Hbq. rewrite Hdq in Hbq.
      change (53 - 1) with 52 in Hbq.
      change (53 - 53) with 0. rewrite Z.pow_0_r, Z.div_1_r. exact Hbq.
    - change (54 - 53) with 1. rewrite Z.pow_1_r, Hqv, H53.
      rewrite (Z.mul_comm 2), Z.div_mul by lia. lia. }
  assert (Hexp : e + k + (digits q - 53) <= 971).
  { destruct Hdq as [Hdq|[Hdq Hqv]]; rewrite Hdq; [lia|].
    destruct Hfit as [Hfit|[_ Hfit]]; [lia|].
    rewrite <- Hm in Hfit. lia. }
  destruct (shr_m r2) as [|q'|q'] eqn:Hq2; try lia.
  assert (Hleb : (e + k + (digits q - 53) <=? emax - prec) = true).
  { apply Z.leb_le. unfold emax, prec. lia. }
  rewrite Hleb. eexists. eexists. split; [reflexivity|].
  unfold valid_binary, bounded, canonical_mantissa. rewrite Hleb.
  fold (digits q').
  rewrite (digits_unique q' 53) by (change (53 - 1) with 52; lia).
  rewrite fexp_normal by lia.
  rewrite andb_true_r. apply Z.eqb_eq. lia.
Qed.


(** Shifting a mantissa to the left. *)
Lemma iter_xO m k : Zpos (Pos.iter xO m k) = Zpos m * 2 ^ Zpos k.
Proof.
  induction k as [|k IH] using Pos.peano_ind.
  - simpl. lia.
  - rewrite Pos.iter_succ, Pos2Z.inj_xO, IH, Pos2Z.inj_succ, Z.pow_succ_r by lia.
    lia.
Qed.

(** Every positive integer below the largest double rounds to a finite
    double. *)
Lemma binary_normalize_int m :
  Zpos m < max_double ->
  exists q e,
    binary_normalize prec emax (Zpos m) 0 false = S754_finite false q e
    /\ valid_binary (S754_finite false q e) = true.
Proof.
  intros Hmax. unfold binary_normalize, binary_round. fold (digits m).
  rewrite Z.add_0_r.
  pose proof (digits_bounds m) as Hb.
  assert (Hdpos : 0 < digits m) by (unfold digits; lia).
  rewrite fexp_normal by lia.
  unfold shl_align. rewrite Z.sub_0_r.
  destruct (digits m - 53) as [|k|k] eqn:Hk.
  - apply binary_round_aux_finite; lia.
  - apply binary_round_aux_finite; [lia|lia|].
    rewrite Hk.
    assert (Hd : digits m <= 1024).
    { destruct (Z.le_gt_cases (digits m) 1024) as [H|H]; [exact H|].
      assert (2 ^ 1024 <= 2 ^ (digits m - 1)) by (apply Z.pow_le_mono_r; lia).
      assert (max_double < 2 ^ 1024).
      { unfold max_double. change 1024 with (53 + 971).
        rewrite Z.pow_add_r by lia.
        assert (0 < 2 ^ 971) by (apply Z.pow_pos_nonneg; lia). nia. }
      lia. }
    destruct (Z.eq_dec (Zpos k) 971) as [Heq|Hne]; [|left; lia].
    right. split; [lia|]. rewrite Heq.
    apply Z.div_lt_upper_bound; [apply Z.pow_pos_nonneg; lia|].
    unfold max_double in Hmax. lia.
  - assert (Hdig : digits (Pos.iter xO m k) = 53).
    { apply digits_unique. rewrite iter_xO.
      assert (Hkd : Zpos k = 53 - digits m) by lia.
      assert (E1 : 2 ^ (53 - 1) = 2 ^ (digits m - 1) * 2 ^ Zpos k)
        by (rewrite <- Z.pow_add_r by lia; f_equal; lia).
      assert (E2 : 2 ^ 53 = 2 ^ digits m * 2 ^ Zpos k)
        by (rewrite <- Z.pow_add_r by lia; f_equal; lia).
      assert (0 < 2 ^ Zpos k) by (apply Z.pow_pos_nonneg; lia).
      rewrite E1, E2. split.
      - apply Z.mul_le_mono_nonneg_r; lia.
      - apply Z.mul_lt_mono_pos_r; lia. }
    apply binary_round_aux_finite; rewrite ?Hdig; lia.
Qed.

(** ** Python numbers: conversions between [int] and [float] *)

Lemma max_double_pos : 2 ^ 53 - 1 <= max_double.
Proof.
  unfold max_double.
  assert (0 < 2 ^ 971) by (apply Z.pow_pos_nonneg; lia).
  assert (0 < 2 ^ 53 - 1) by (change (2 ^ 53) with 9007199254740992; lia).
  nia.
Qed.

(** A non-negative integer below the largest double converts without
    overflow, to a non-negative double. *)
Lemma float_of_int_nonneg i :
  0 <= i < max_double ->
  exists f,
    Py.float_of_int i = Ok f
    /\ (Prim2SF f = S754_zero false
        \/ exists q e, Prim2SF f = S754_finite false q e).
Proof.
  intros [H0 Hmax]. unfold Py.float_of_int.
  destruct i as [|m|m]; [| |lia].
  - simpl. exists zero. split; [reflexivity|]. left. reflexivity.
  - destruct (binary_normalize_int m Hmax) as (q & e & Hn & Hv).
    rewrite Hn. eexists. split; [reflexivity|].
    right. exists q, e. apply Prim2SF_SF2Prim. exact Hv.
Qed.

(** [int(x)] never exceeds the largest double. *)
Lemma int_of_float_le_max x n : Py.int_of_float x = Ok n -> n <= max_double.
Proof.
  unfold Py.int_of_float. pose proof (Prim2SF_valid x) as Hv.
  pose proof max_double_pos as Hpos.
  assert (H53 : 0 < 2 ^ 53 - 1) by (change (2 ^ 53) with 9007199254740992; lia).
  destruct (Prim2SF x) as [s|s| |s m e]; try discriminate;
    intros H; injection H as <-; [lia|].
  assert (Hsh : 0 <= Z.shiftl (Zpos m) e) by (apply Z.shiftl_nonneg; lia).
  destruct s; simpl cond_Zopp; [lia|].
  unfold valid_binary, bounded, canonical_mantissa in Hv.
  apply andb_prop in Hv. destruct Hv as [Hc He].
  apply Z.eqb_eq in Hc. apply Z.leb_le in He. fold (digits m) in Hc.
  unfold fexp, SpecFloat.emin, prec, emax in Hc, He.
  assert (Hd : digits m <= 53) by lia.
  pose proof (digits_bounds m) as [_ Hm].
  assert (Hm53 : Zpos m <= 2 ^ 53 - 1).
  { assert (2 ^ digits m <= 2 ^ 53) by (apply Z.pow_le_mono_r; lia). lia. }
  destruct (Z.le_gt_cases 0 e) as [Hpose|Hneg].
  - rewrite Z.shiftl_mul_pow2 by exact Hpose. unfold max_double.
    assert (0 < 2 ^ e) by (apply Z.pow_pos_nonneg; lia).
    assert (2 ^ e <= 2 ^ 971) by (apply Z.pow_le_mono_r; lia).
    nia.
  - rewrite Z.shiftl_div_pow2 by lia.
    assert (0 < 2 ^ (- e)) by (apply Z.pow_pos_nonneg; lia).
    assert (Zpos m / 2 ^ (- e) <= Zpos m)
      by (apply Z.div_le_upper_bound; nia).
    lia.
Qed.

(** Rounding keeps the sign. *)
Lemma binary_round_aux_sign s m e l s' q e' :
  binary_round_aux prec emax s m e l = S754_finite s' q e' -> s' = s.
Proof.
  unfold binary_round_aux.
  destruct (shr_fexp prec emax m e l) as [r1 e1].
  destruct (shr_fexp prec emax _ e1 loc_Exact) as [r2 e2].
  destruct (shr_m r2); [discriminate| |discriminate].
  destruct (e2 <=? emax - prec); [|discriminate].
  intros H. injection H as <- _ _. reflexivity.
Qed.

(** The doubles that are [>= 0]. *)
Lemma nonneg_cases (a : float) :
  (0 <=? a)%float = true ->
  Prim2SF a = S754_infinity false
  \/ (exists s, Prim2SF a = S754_zero s)
  \/ (exists m e, Prim2SF a = S754_finite false m e).
Proof.
  rewrite leb_spec. change (Prim2SF 0) with (S754_zero false).
  unfold SFleb. destruct (Prim2SF a) as [s|s| |s m e]; simpl.
  - intros _. right. left. exists s. reflexivity.
  - destruct s; [discriminate|]. intros _. left. reflexivity.
  - discriminate.
  - destruct s; [discriminate|]. intros _. right. right.
    exists m, e. reflexivity.
Qed.

(** The times and the frame rate of a request are not negative, and on
    their product [int] is the floor. *)
Lemma int_is_floor_of_nonneg_product (a b : float) :
  (0 <=? a)%float = true -> (0 <=? b)%float = true ->
  Py.int_of_float (a * b) = Spec.floor (a * b).
Proof.
  intros Ha Hb. unfold Py.int_of_float, Spec.floor. rewrite mul_spec.
  destruct (nonneg_cases a Ha) as [-> | [(sa & ->) | (ma & ea & ->)]];
    destruct (nonneg_cases b Hb) as [-> | [(sb & ->) | (mb & eb & ->)]];
    try reflexivity.
  unfold SF64mul, SFmul. simpl xorb.
  destruct (binary_round_aux prec emax false (Zpos (ma * mb)) (ea + eb)
              loc_Exact) as [s|s| |s q e] eqn:Hround; try reflexivity.
  apply binary_round_aux_sign in Hround. subst s. reflexivity.
Qed.

Example int_is_not_floor_below_zero :
  Py.int_of_float (-0.5) = Ok 0 /\ Spec.floor (-0.5) = Ok (-1).
Proof. split; vm_compute; reflexivity. Qed.

(** [i * 0.0] is a zero, and [int] of it is 0. *)
Lemma int_mul_float_zero i :
  0 <= i < max_double ->
  exists x, Py.int_mul_float i 0 = Ok x /\ Py.int_of_float x = Ok 0.
Proof.
  intros Hi. destruct (float_of_int_nonneg i Hi) as (f & Hf & Hsf).
  unfold Py.int_mul_float. rewrite Hf. simpl.
  eexists. split; [reflexivity|].
  unfold Py.int_of_float. rewrite mul_spec.
  change (Prim2SF 0) with (S754_zero false).
  destruct Hsf as [-> | (q & e & ->)]; reflexivity.
Qed.

(** [0 / n] is [0.0]. *)
Lemma int_truediv_zero n : 1 <= n -> Py.int_truediv 0 n = Ok 0%float.
Proof. destruct n; try lia. reflexivity. Qed.

(** Comparing the other way round gives the opposite answer. *)
Lemma SFcompare_antisym x y :
  SFcompare y x = option_map CompOpp (SFcompare x y).
Proof.
  destruct x as [sx|sx| |sx mx ex], y as [sy|sy| |sy my ey]; simpl;
    try reflexivity;
    try (destruct sx; reflexivity); try (destruct sy; reflexivity);
    try (destruct sx, sy; reflexivity).
  destruct sx, sy; try reflexivity; f_equal;
    rewrite (Z.compare_antisym ex ey);
    destruct (ex ?= ey); simpl; try reflexivity;
    rewrite (Pos.compare_cont_antisym mx my Eq); simpl;
    try rewrite CompOpp_involutive; reflexivity.
Qed.

(** [a < b] excludes [a >= b]. *)
Lemma ltb_not_geb (a b : float) :
  (a <? b)%float = true -> (b <=? a)%float = false.
Proof.
  rewrite ltb_spec, leb_spec. unfold SFltb, SFleb.
  rewrite (SFcompare_antisym (Prim2SF a) (Prim2SF b)).
  destruct (SFcompare (Prim2SF a) (Prim2SF b)) as [[| |]|]; simpl;
    intros H; try discriminate H; reflexivity.
Qed.

(** ** Signs *)

Lemma binary_round_aux_not_negative m e l :
  not_negative (binary_round_aux prec emax false m e l).
Proof.
  unfold binary_round_aux.
  destruct (shr_fexp prec emax m e l) as [r1 e1].
  destruct (shr_fexp prec emax _ e1 loc_Exact) as [r2 e2].
  destruct (shr_m r2); [exact I| |exact I].
  destruct (e2 <=? emax - prec); reflexivity.
Qed.

Lemma binary_round_not_negative m e :
  not_negative (binary_round prec emax false m e).
Proof.
  unfold binary_round. destruct (shl_align m e _) as [mz ez].
  apply binary_round_aux_not_negative.
Qed.

Lemma binary_normalize_not_negative z :
  0 <= z -> not_negative (binary_normalize prec emax z 0 false).
Proof.
  destruct z as [|m|m]; intros Hz; [exact I| |lia].
  apply binary_round_not_negative.
Qed.

Lemma SFldexp_not_negative x e :
  not_negative x -> not_negative (SFldexp prec emax x e).
Proof.
  destruct x as [s|s| |s m ex]; simpl; auto.
  intros ->. apply binary_round_not_negative.
Qed.

Lemma SFmul_not_negative x y :
  not_negative x -> not_negative y -> not_negative (SFmul prec emax x y).
Proof.
  destruct x as [sx|sx| |sx mx ex], y as [sy|sy| |sy my ey]; simpl;
    intros Hx Hy; subst; try exact I; try reflexivity.
  apply binary_round_aux_not_negative.
Qed.

(** The double made from a non-negative mantissa is not negative, whether
    or not the mantissa is in canonical form. *)
Lemma SF2Prim_not_negative m e :
  not_negative (Prim2SF (SF2Prim (S754_finite false m e))).
Proof.
  unfold SF2Prim. rewrite Z_ldexp_spec, of_uint63_spec.
  apply SFldexp_not_negative, binary_normalize_not_negative.
  apply Uint63.to_Z_bounded.
Qed.

Lemma int_of_not_negative x k :
  not_negative (Prim2SF x) -> Py.int_of_float x = Ok k -> 0 <= k.
Proof.
  unfold Py.int_of_float.
  destruct (Prim2SF x) as [s|s| |s m e]; simpl; intros Hs H;
    try discriminate H; injection H as <-; [lia|].
  subst s. simpl. apply Z.shiftl_nonneg. lia.
Qed.

(** The quotient of two positive ints is not negative. *)
Lemma int_truediv_not_negative a b c :
  1 <= a -> 1 <= b -> Py.int_truediv a b = Ok c -> not_negative (Prim2SF c).
Proof.
  intros Ha Hb. unfold Py.int_truediv.
  destruct a as [|pa|pa]; try lia. destruct b as [|pb|pb]; try lia.
  simpl Z.eqb. cbv iota. unfold Py.exact_of_int, SFdiv.
  destruct (SFdiv_core_binary prec emax (Zpos pa) 0 (Zpos pb) 0)
    as [[mz ez] lz].
  simpl xorb.
  pose proof (binary_round_aux_not_negative mz ez lz) as Hsign.
  destruct (binary_round_aux prec emax false mz ez lz) as [s|s| |s q e];
    intros H; try discriminate H; injection H as <-.
  - destruct s; exact I.
  - simpl in Hsign. subst s. apply SF2Prim_not_negative.
Qed.

(** The product of a position and a stride that is not negative. *)
Lemma int_mul_float_not_negative i c x :
  0 <= i < max_double -> not_negative (Prim2SF c) ->
  Py.int_mul_float i c = Ok x -> not_negative (Prim2SF x).
Proof.
  intros Hi Hc. destruct (float_of_int_nonneg i Hi) as (f & Hf & Hsf).
  unfold Py.int_mul_float. rewrite Hf. simpl.
  intros H. injection H as <-. rewrite mul_spec.
  apply SFmul_not_negative; [|exact Hc].
  destruct Hsf as [-> | (q & e & ->)]; simpl; auto.
Qed.

(** ** Python lists *)

Lemma range_length n : length (Py.range n) = Z.to_nat n.
Proof. unfold Py.range. rewrite length_map, length_seq. reflexivity. Qed.

Lemma range_In i n : In i (Py.range n) -> 0 <= i < n.
Proof.
  unfold Py.range. rewrite in_map_iff. intros (k & <- & Hk).
  apply in_seq in Hk. lia.
Qed.

(** A comprehension whose element is always the same value. *)
Lemma comprehension_const {A B : Type} (f : A -> result B) (c : B) l :
  (forall a, In a l -> f a = Ok c) ->
  Py.comprehension f l = Ok (repeat c (length l)).
Proof.
  induction l as [|a l IH]; intros Hf; simpl; [reflexivity|].
  rewrite (Hf a (or_introl eq_refl)). simpl.
  rewrite IH by (intros a' Ha'; apply Hf; right; exact Ha').
  reflexivity.
Qed.

(** ** Running [create_gif] step by step *)

Lemma bind_lift_Ok {A B : Type} (r : result A) (a : A) (k : A -> M B) w :
  r = Ok a -> bind (lift r) k w = k a w.
Proof. intros ->. reflexivity. Qed.

Lemma bind_lift_Raise {A B : Type} (r : result A) (e : exn) (k : A -> M B) w :
  r = Raise e -> bind (lift r) k w = (Raise e, w).
Proof. intros ->. reflexivity. Qed.

Lemma rbind_Ok_inv {A B : Type} (r : result A) (k : A -> result B) (b : B) :
  rbind r k = Ok b -> exists a, r = Ok a /\ k a = Ok b.
Proof. destruct r as [a|e]; simpl; [eauto | discriminate]. Qed.

Lemma bind_Ok_inv {A B : Type} (m : M A) (k : A -> M B) w b w'' :
  bind m k w = (Ok b, w'') ->
  exists a w', m w = (Ok a, w') /\ k a w' = (Ok b, w'').
Proof.
  unfold bind. destruct (m w) as [[a|e] w']; [eauto | discriminate].
Qed.

Lemma lift_Ok_inv {A : Type} (r : result A) w a w' :
  lift r w = (Ok a, w') -> r = Ok a /\ w' = w.
Proof. unfold lift. intros H. injection H as -> ->. split; reflexivity. Qed.

(** What lines 98 to 103 make of a frame that was read. *)
Lemma process_frame_read self t frames idx frame w :
  cap self idx = Some frame ->
  process_frame self t frames idx w
  = (r <- output_frame t frame ;; Ok (frames ++ [r]),
     {| cap_pos := idx + 1;
        trace := (trace w ++ [CapSet idx]) ++ [CapRead true] |})%result.
Proof.
  intros Hread. unfold process_frame, bind, cap_set, cap_read. simpl.
  rewrite Hread. unfold output_frame.
  destruct (negb (scale_factor t =? 1)%float); [|reflexivity].
  unfold lift.
  destruct (resize (cvtColor_BGR2RGB frame) (new_width t) (new_height t));
    reflexivity.
Qed.

(** A failed read skips the frame. *)
Lemma process_frame_skip self t frames idx w :
  cap self idx = None ->
  process_frame self t frames idx w
  = (Ok frames,
     {| cap_pos := idx;
        trace := (trace w ++ [CapSet idx]) ++ [CapRead false] |}).
Proof.
  intros Hread. unfold process_frame, bind, cap_set, cap_read. simpl.
  rewrite Hread. reflexivity.
Qed.

(** A property of every processed frame holds of every collected frame. *)
Lemma collect_frames_Forall (P : image -> Prop) self t :
  (forall idx frame r,
      cap self idx = Some frame -> output_frame t frame = Ok r -> P r) ->
  forall indices acc w frames' w',
    Forall P acc ->
    collect_frames self t acc indices w = (Ok frames', w') ->
    Forall P frames'.
Proof.
  intros HP. induction indices as [|idx rest IH];
    intros acc w frames' w' Hacc Hrun; simpl in Hrun.
  - unfold ret in Hrun. injection Hrun as <- _. exact Hacc.
  - unfold bind at 1 in Hrun.
    destruct (cap self idx) as [frame|] eqn:Hread.
    + rewrite (process_frame_read _ _ _ _ _ _ Hread) in Hrun.
      destruct (output_frame t frame) as [r|e] eqn:Hout;
        [|discriminate Hrun].
      simpl in Hrun. eapply IH; [|exact Hrun].
      apply Forall_app. split; [exact Hacc|].
      constructor; [|constructor]. apply (HP idx frame r Hread Hout).
    + rewrite (process_frame_skip _ _ _ _ _ Hread) in Hrun.
      eapply IH; [exact Hacc | exact Hrun].
Qed.

(** ** The resize target (lines 71-78) *)

(** C1, as stated, fails on its own scenario: for the 1920x1080 source and a
    maximum width of 300 the height the code computes is not
    round(1080 * 300 / 1920) = 169, whether the quotient is taken exactly or
    in doubles. *)
Lemma C1_height_is_not_rounded :
  ~ (exists t, resize_parameters hd_source (Some 300) = Ok t
               /\ new_width t = 300
               /\ (new_height t = Spec.newHeight_exact hd_source 300
                   \/ Ok (new_height t) = Spec.newHeight hd_source 300)).
Proof.
  intros (t & Ht & _ & Hh).
  vm_compute in Ht. injection Ht as <-.
  vm_compute in Hh. destruct Hh as [Hh|Hh]; discriminate Hh.
Qed.

(** C1, amended: the 1920x1080 source with a maximum width of 300 gets the
    target 300 x 168; whenever the maximum width is set (not 0) and strictly
    less than the source width, the new width is the maximum width and the
    new height is [int(height * (width / source width))], the product of
    doubles truncated toward zero, not rounded. *)
Theorem C1_resize_target_truncates :
  resize_parameters hd_source (Some 300)
  = Ok {| scale_factor := 0.15625; new_width := 300; new_height := 168 |}
  /\ forall self w scale scaled nh,
       w <> 0 ->
       w < width self ->
       Py.int_truediv w (width self) = Ok scale ->
       Py.int_mul_float (height self) scale = Ok scaled ->
       Py.int_of_float scaled = Ok nh ->
       resize_parameters self (Some w)
       = Ok {| scale_factor := scale; new_width := w; new_height := nh |}.
Proof.
  split; [vm_compute; reflexivity|].
  intros self w scale scaled nh Hw Hlt Hscale Hscaled Hnh.
  unfold resize_parameters, truthy.
  assert (Hnz : (w =? 0) = false) by (apply Z.eqb_neq; exact Hw).
  assert (Hltb : (w <? width self) = true) by (apply Z.ltb_lt; exact Hlt).
  rewrite Hnz, Hltb. simpl.
  rewrite Hscale. simpl. rewrite Hscaled. simpl. rewrite Hnh. reflexivity.
Qed.

Lemma C1_resize_target_truncates_witness :
  resize_parameters
    {| cap := uniform_video 640 360 100; fps := 25; total_frames := 100;
       width := 640; height := 360; duration := 4 |} (Some 100)
  = Ok {| scale_factor := 0.15625; new_width := 100; new_height := 56 |}.
Proof.
  apply (proj2 C1_resize_target_truncates
           {| cap := uniform_video 640 360 100; fps := 25;
              total_frames := 100; width := 640; height := 360;
              duration := 4 |} 100 0.15625%float 56.25%float 56).
  - discriminate.
  - reflexivity.
  - vm_compute. reflexivity.
  - vm_compute. reflexivity.
  - vm_compute. reflexivity.
Defined.

(** C8: when no maximum width is given, or it is at least the source width,
    the scale factor is 1.0, the target is the source's own width and
    height, and no frame is resized: every collected frame is the decoded
    one with its channel order swapped, so on a source whose frames decode
    at the source dimensions every output frame has exactly these. *)
Theorem C8_no_resize_without_smaller_width :
  forall self width_arg,
    (width_arg = None \/ exists w, width_arg = Some w /\ width self <= w) ->
    exists t,
      resize_parameters self width_arg = Ok t
      /\ scale_factor t = 1%float
      /\ new_width t = width self
      /\ new_height t = height self
      /\ (forall frame frames idx w,
            cap self idx = Some frame ->
            process_frame self t frames idx w
            = (Ok (frames ++ [cvtColor_BGR2RGB frame]),
               {| cap_pos := idx + 1;
                  trace := (trace w ++ [CapSet idx]) ++ [CapRead true] |}))
      /\ (forall indices w frames' w',
            (forall idx frame, cap self idx = Some frame ->
               img_width frame = width self
               /\ img_height frame = height self) ->
            collect_frames self t [] indices w = (Ok frames', w') ->
            Forall (fun f => img_width f = width self
                             /\ img_height f = height self) frames').
Proof.
  intros self width_arg Hwidth.
  exists {| scale_factor := 1; new_width := width self;
            new_height := height self |}.
  assert (Htarget : resize_parameters self width_arg
                    = Ok {| scale_factor := 1; new_width := width self;
                            new_height := height self |}).
  { destruct Hwidth as [-> | (w & -> & Hge)]; [reflexivity|].
    unfold resize_parameters.
    assert (Hltb : (w <? width self) = false) by (apply Z.ltb_ge; exact Hge).
    rewrite Hltb, andb_false_r. reflexivity. }
  repeat split; try exact Htarget.
  - intros frame frames0 idx w Hread.
    rewrite (process_frame_read _ _ _ _ _ _ Hread). reflexivity.
  - intros indices w frames' w' Hdims Hrun.
    eapply collect_frames_Forall; [|constructor|exact Hrun].
    intros idx frame r Hread Hout. injection Hout as <-.
    simpl. apply (Hdims idx frame Hread).
Qed.

Lemma C8_no_resize_without_smaller_width_witness :
  exists t,
    resize_parameters hd_source (Some 1920) = Ok t
    /\ scale_factor t = 1%float
    /\ new_width t = 1920
    /\ new_height t = 1080.
Proof.
  destruct (C8_no_resize_without_smaller_width hd_source (Some 1920))
    as (t & Ht & Hs & Hw & Hh & _).
  - right. exists 1920. split; [reflexivity | simpl; lia].
  - exists t. repeat split; assumption.
Defined.

(** C10: a maximum width of 0 is falsy, like [None]: the target is the
    source's own dimensions with scale factor 1.0, and the whole conversion
    is the one of a request without a maximum width; nothing is rejected
    and no zero-width frame is asked for. *)
Theorem C10_zero_width_is_unset :
  forall self,
    resize_parameters self (Some 0)
    = Ok {| scale_factor := 1; new_width := width self;
            new_height := height self |}
    /\ resize_parameters self (Some 0) = resize_parameters self None
    /\ forall pil_available save duration_arg fps_arg start_time stop_time
              optimize w,
         create_gif self pil_available save duration_arg (Some 0) fps_arg
           start_time stop_time optimize w
         = create_gif self pil_available save duration_arg None fps_arg
             start_time stop_time optimize w.
Proof.
  intros self. repeat split.
Qed.

(** ** The time parameters (lines 58-68) *)

(** C5: whenever the start time is at or after the clamped stop time,
    [create_gif] raises [ValueError] at line 63 and has done nothing else:
    no index was computed, the capture was neither moved nor read, nothing
    was printed or written. *)
Theorem C5_start_not_before_stop_raises :
  forall self pil_available save duration_arg width_arg fps_arg start_time
         stop_time optimize w,
    (clamp_stop self stop_time <=? start_time)%float = true ->
    time_parameters self start_time stop_time = Raise ValueError
    /\ create_gif self pil_available save duration_arg width_arg fps_arg
         start_time stop_time optimize w
       = (Raise ValueError, w).
Proof.
  intros self pil_available save duration_arg width_arg fps_arg start_time
    stop_time optimize w Hge.
  assert (Hraise : time_parameters self start_time stop_time
                   = Raise ValueError).
  { unfold time_parameters. rewrite Hge. reflexivity. }
  split; [exact Hraise|].
  unfold create_gif. apply bind_lift_Raise. exact Hraise.
Qed.

(** A stop time beyond the end of the 120 s source is clamped to 120, so a
    start at 120 is rejected. *)
Lemma C5_start_not_before_stop_raises_witness :
  time_parameters hd_source 120 (Some 500%float) = Raise ValueError
  /\ create_gif hd_source true saves 5 None 10 120 (Some 500%float) true
       initial_world
     = (Raise ValueError, initial_world).
Proof.
  apply (C5_start_not_before_stop_raises hd_source true saves 5 None 10 120
           (Some 500%float) true initial_world).
  vm_compute. reflexivity.
Defined.

(** C4, as stated, fails: from 0.03125 s to 0.234375 s of the 30 fps source
    the code counts 7 - 0 = 7 frames, and
    round((0.234375 - 0.03125) * 30) = round(6.09375) = 6. *)
Lemma C4_effective_frames_is_not_rounded :
  ~ (exists s,
       time_parameters hd_source 0.03125 (Some 0.234375%float) = Ok s
       /\ Spec.effectiveFrames hd_source 0.03125 (stop_time' s)
          = Ok (effective_frames s)).
Proof.
  intros (s & Hs & Hround).
  vm_compute in Hs. injection Hs as <-.
  vm_compute in Hround. discriminate Hround.
Qed.

(** C4, amended: the number of effective source frames is
    [int(stop_time * fps) - int(start_time * fps)], the difference of the two
    truncated frame positions, with [stop_time] the clamped one. *)
Theorem C4_effective_frames_is_difference_of_floors :
  forall self start_time stop_time s,
    time_parameters self start_time stop_time = Ok s ->
    stop_time' s = clamp_stop self stop_time
    /\ Py.int_of_float (start_time * fps self)%float = Ok (start_frame s)
    /\ Py.int_of_float (stop_time' s * fps self)%float = Ok (end_frame s)
    /\ effective_frames s = end_frame s - start_frame s.
Proof.
  intros self start_time stop_time s Hs.
  unfold time_parameters in Hs.
  destruct (clamp_stop self stop_time <=? start_time)%float;
    [discriminate Hs|].
  apply rbind_Ok_inv in Hs. destruct Hs as (sf & Hsf & Hs).
  apply rbind_Ok_inv in Hs. destruct Hs as (ef & Hef & Hs).
  injection Hs as <-. simpl. repeat split; assumption.
Qed.

Lemma C4_effective_frames_is_difference_of_floors_witness :
  Py.int_of_float (0.03125 * 30)%float = Ok 0
  /\ Py.int_of_float (0.234375 * 30)%float = Ok 7
  /\ 7 = 7 - 0.
Proof.
  apply (C4_effective_frames_is_difference_of_floors hd_source
           0.03125%float (Some 0.234375%float)
           {| stop_time' := 0.234375; effective_duration := 0.203125;
              start_frame := 0; end_frame := 7; effective_frames := 7 |}).
  vm_compute. reflexivity.
Defined.

(** ** Frame sampling (lines 81-87) *)

(** [create_gif] once the three computations before the loop are known. *)
Lemma create_gif_after_sampling self pil_available save duration_arg
    width_arg fps_arg start_time stop_time optimize s t p w :
  time_parameters self start_time stop_time = Ok s ->
  resize_parameters self width_arg = Ok t ->
  frame_sampling (start_frame s) (effective_frames s) duration_arg fps_arg
  = Ok p ->
  create_gif self pil_available save duration_arg width_arg fps_arg
    start_time stop_time optimize w
  = (frames <- collect_frames self t [] (frame_indices p) ;;
     emit Echo ;;
     frame_duration <- lift (Py.float_div_int 1 fps_arg) ;;
     (if optimize && pil_available
      then _save_optimized_gif save frames frame_duration
      else call save (imageio_mimsave frames frame_duration 0)) ;;
     ret {| seg := s; target := t; samp := p; frames := frames;
            frame_duration := frame_duration |})%M w.
Proof.
  intros Hs Ht Hp. unfold create_gif.
  rewrite (bind_lift_Ok _ _ _ _ Hs), (bind_lift_Ok _ _ _ _ Ht),
    (bind_lift_Ok _ _ _ _ Hp).
  reflexivity.
Qed.

(** A call of a writer: the call is recorded and ends as the writer ends
    it. *)
Lemma call_run save c w :
  call save c w
  = (save c, {| cap_pos := cap_pos w; trace := trace w ++ [Write c] |}).
Proof. unfold call, bind, emit, lift. reflexivity. Qed.

(** Lines 111 to 114: either the optimized path has no frame and raises
    [IndexError] without a call, or one call is made and the step ends as
    that call ends. *)
Lemma save_step save (optimized : bool) fr fd w :
  (optimized = true /\ fr = []
   /\ (if optimized
       then _save_optimized_gif save fr fd
       else call save (imageio_mimsave fr fd 0)) w = (Raise IndexError, w))
  \/ (exists wr,
        (if optimized
         then _save_optimized_gif save fr fd
         else call save (imageio_mimsave fr fd 0)) w
        = (save wr,
           {| cap_pos := cap_pos w; trace := trace w ++ [Write wr] |})
        /\ (optimized = false -> wr = imageio_mimsave fr fd 0)
        /\ (optimized = true ->
            exists first rest,
              fr = first :: rest
              /\ wr = PIL_save first rest (fd * 1000)%float 0 true 85 true)).
Proof.
  destruct optimized.
  - destruct fr as [|first rest].
    + left. repeat split.
    + right. eexists. split; [apply call_run|].
      split; [discriminate|]. intros _. exists first, rest.
      split; reflexivity.
  - right. eexists. split; [apply call_run|].
    split; [reflexivity | discriminate].
Qed.

(** What a returning [create_gif] went through. *)
Lemma create_gif_Ok_inv self pil_available save duration_arg width_arg
    fps_arg start_time stop_time optimize w l w' :
  create_gif self pil_available save duration_arg width_arg fps_arg
    start_time stop_time optimize w = (Ok l, w') ->
  exists s t p fr w1 fd wr,
    time_parameters self start_time stop_time = Ok s
    /\ resize_parameters self width_arg = Ok t
    /\ frame_sampling (start_frame s) (effective_frames s) duration_arg
         fps_arg = Ok p
    /\ collect_frames self t [] (frame_indices p) w = (Ok fr, w1)
    /\ Py.float_div_int 1 fps_arg = Ok fd
    /\ save wr = Ok tt
    /\ w' = {| cap_pos := cap_pos w1;
               trace := (trace w1 ++ [Echo]) ++ [Write wr] |}
    /\ (optimize && pil_available = false ->
        wr = imageio_mimsave fr fd 0)
    /\ (optimize && pil_available = true ->
        exists first rest,
          fr = first :: rest
          /\ wr = PIL_save first rest (fd * 1000)%float 0 true 85 true)
    /\ l = {| seg := s; target := t; samp := p; frames := fr;
              frame_duration := fd |}.
Proof.
  unfold create_gif. intros H.
  apply bind_Ok_inv in H. destruct H as (s & w0 & Hs & H).
  apply lift_Ok_inv in Hs. destruct Hs as [Hs ->].
  apply bind_Ok_inv in H. destruct H as (t & w0 & Ht & H).
  apply lift_Ok_inv in Ht. destruct Ht as [Ht ->].
  apply bind_Ok_inv in H. destruct H as (p & w0 & Hp & H).
  apply lift_Ok_inv in Hp. destruct Hp as [Hp ->].
  apply bind_Ok_inv in H. destruct H as (fr & w1 & Hfr & H).
  apply bind_Ok_inv in H. destruct H as ([] & w2 & Hecho & H).
  unfold emit in Hecho. injection Hecho as <-.
  apply bind_Ok_inv in H. destruct H as (fd & w3 & Hfd & H).
  apply lift_Ok_inv in Hfd. destruct Hfd as [Hfd ->].
  apply bind_Ok_inv in H. destruct H as ([] & w4 & Hwrite & H).
  unfold ret in H. injection H as <- <-.
  destruct (save_step save (optimize && pil_available) fr fd
              {| cap_pos := cap_pos w1; trace := trace w1 ++ [Echo] |})
    as [(_ & _ & Hraise) | (wr & Hcall & Hfallback & Hoptimized)].
  - rewrite Hraise in Hwrite. discriminate Hwrite.
  - rewrite Hcall in Hwrite. injection Hwrite as Hsave <-.
    exists s, t, p, fr, w1, fd, wr. repeat split; assumption.
Qed.

(** C6: the source of 120 s at 30 fps with start 30, stop 90, output
    duration 3 and output fps 10: 1800 effective frames, 30 output frames,
    stride 60, and the indices 900, 960, ..., 900 + 29 * 60. These are the
    values of every run of this request that returns, whatever the writer
    does. *)
Theorem C6_two_minute_source_scenario :
  __init__ true (uniform_video 1920 1080 3600) 30 3600 1920 1080
  = Ok hd_source
  /\ duration hd_source = 120%float
  /\ exists l w,
       create_gif hd_source true saves 3 None 10 30 (Some 90%float) true
         initial_world = (Ok l, w)
       /\ start_frame (seg l) = 900
       /\ effective_frames (seg l) = 1800
       /\ output_frames_count (samp l) = 30
       /\ frame_interval (samp l) = 60%float
       /\ frame_indices (samp l)
          = [900; 960; 1020; 1080; 1140; 1200; 1260; 1320; 1380; 1440;
             1500; 1560; 1620; 1680; 1740; 1800; 1860; 1920; 1980; 2040;
             2100; 2160; 2220; 2280; 2340; 2400; 2460; 2520; 2580; 2640]
       /\ frame_indices (samp l)
          = map (fun i => 900 + i * 60) (Py.range 30)
       /\ length (frame_indices (samp l)) = 30%nat
       /\ map img_source (frames l) = frame_indices (samp l)
       /\ forall save l' w',
            create_gif hd_source true save 3 None 10 30 (Some 90%float) true
              initial_world = (Ok l', w') ->
            l' = l.
Proof.
  split; [reflexivity|]. split; [reflexivity|].
  eexists. eexists. split.
  - vm_compute. reflexivity.
  - repeat split.
    intros save l' w' Hrun.
    apply create_gif_Ok_inv in Hrun.
    destruct Hrun as (s & t & p & fr & w1 & fd & wr & Hs & Ht & Hp & Hfr
                      & Hfd & _ & _ & _ & _ & ->).
    vm_compute in Hs. injection Hs as <-.
    vm_compute in Ht. injection Ht as <-.
    vm_compute in Hp. injection Hp as <-.
    vm_compute in Hfr. injection Hfr as <- _.
    vm_compute in Hfd. injection Hfd as <-.
    reflexivity.
Qed.

(** A comprehension that returns has one element per element of its
    source, each the value of the element expression. *)
Lemma comprehension_length {A B : Type} (f : A -> result B) l :
  forall r, Py.comprehension f l = Ok r -> length r = length l.
Proof.
  induction l as [|a l IH]; intros r H; simpl in H.
  - injection H as <-. reflexivity.
  - apply rbind_Ok_inv in H. destruct H as (b & _ & H).
    apply rbind_Ok_inv in H. destruct H as (bs & Hbs & H).
    injection H as <-. simpl. f_equal. apply IH. exact Hbs.
Qed.

Lemma comprehension_Forall {A B : Type} (P : B -> Prop) (f : A -> result B) l :
  (forall a b, In a l -> f a = Ok b -> P b) ->
  forall r, Py.comprehension f l = Ok r -> Forall P r.
Proof.
  induction l as [|a l IH]; intros HP r H; simpl in H.
  - injection H as <-. constructor.
  - apply rbind_Ok_inv in H. destruct H as (b & Hb & H).
    apply rbind_Ok_inv in H. destruct H as (bs & Hbs & H).
    injection H as <-. constructor.
    + apply (HP a b (or_introl eq_refl) Hb).
    + apply IH; [|exact Hbs].
      intros a' b' Ha'. apply HP. right. exact Ha'.
Qed.

(** What holds of every sampling that returns: there are exactly
    [output_frames_count] indices, where [output_frames_count] is
    [int(duration * fps)], and the clamp of line 86 keeps each of them below
    [start_frame + effective_frames]. *)
Lemma frame_sampling_count_and_clamp start_frame effective_frames
    duration_arg fps_arg p :
  frame_sampling start_frame effective_frames duration_arg fps_arg = Ok p ->
  (exists x, Py.float_mul_int duration_arg fps_arg = Ok x
             /\ Py.int_of_float x = Ok (output_frames_count p))
  /\ length (frame_indices p) = Z.to_nat (output_frames_count p)
  /\ Forall (fun k => k < start_frame + effective_frames) (frame_indices p).
Proof.
  unfold frame_sampling. intros H.
  apply rbind_Ok_inv in H. destruct H as (x & Hx & H).
  apply rbind_Ok_inv in H. destruct H as (n & Hn & H).
  apply rbind_Ok_inv in H. destruct H as (step & Hstep & H).
  apply rbind_Ok_inv in H. destruct H as (idx & Hidx & H).
  injection H as <-. simpl. split; [exists x; split; assumption|]. split.
  - rewrite (comprehension_length _ _ _ Hidx). apply range_length.
  - eapply comprehension_Forall; [|exact Hidx].
    intros i k _ Hk. unfold frame_index in Hk.
    apply rbind_Ok_inv in Hk. destruct Hk as (y & _ & Hk).
    apply rbind_Ok_inv in Hk. destruct Hk as (j & _ & Hk).
    injection Hk as <-. lia.
Qed.

(** On a segment of at least one frame every index of a sampling that
    returns is within the segment: the clamp of line 86 bounds it above,
    and the products [i * frame_interval] are not negative. *)
Lemma frame_sampling_within_segment start_frame effective_frames
    duration_arg fps_arg p :
  1 <= effective_frames ->
  frame_sampling start_frame effective_frames duration_arg fps_arg = Ok p ->
  Forall (fun k => start_frame <= k < start_frame + effective_frames)
    (frame_indices p).
Proof.
  intros Hef. unfold frame_sampling. intros H.
  apply rbind_Ok_inv in H. destruct H as (x & Hx & H).
  apply rbind_Ok_inv in H. destruct H as (n & Hn & H).
  apply rbind_Ok_inv in H. destruct H as (step & Hstep & H).
  apply rbind_Ok_inv in H. destruct H as (idx & Hidx & H).
  injection H as <-. simpl.
  eapply comprehension_Forall; [|exact Hidx].
  intros i k Hi Hk. apply range_In in Hi.
  pose proof (int_of_float_le_max x n Hn) as Hmax.
  assert (Hstep' : not_negative (Prim2SF step))
    by (apply (int_truediv_not_negative effective_frames n); [lia|lia|exact Hstep]).
  unfold frame_index in Hk.
  apply rbind_Ok_inv in Hk. destruct Hk as (y & Hy & Hk).
  apply rbind_Ok_inv in Hk. destruct Hk as (j & Hj & Hk).
  injection Hk as <-.
  assert (0 <= j).
  { apply (int_of_not_negative y); [|exact Hj].
    apply (int_mul_float_not_negative i step); [lia|exact Hstep'|exact Hy]. }
  lia.
Qed.

(** C2, on the code: when [int(duration * fps)] is 0, line 82 divides by
    zero. [create_gif] raises [ZeroDivisionError] before the index list is
    built; no empty sequence reaches an encoder. *)
Theorem C2_zero_output_frames_divides_by_zero :
  forall self pil_available save duration_arg width_arg fps_arg start_time
         stop_time optimize s t x w,
    time_parameters self start_time stop_time = Ok s ->
    resize_parameters self width_arg = Ok t ->
    Py.float_mul_int duration_arg fps_arg = Ok x ->
    Py.int_of_float x = Ok 0 ->
    frame_sampling (start_frame s) (effective_frames s) duration_arg fps_arg
    = Raise ZeroDivisionError
    /\ create_gif self pil_available save duration_arg width_arg fps_arg
         start_time stop_time optimize w
       = (Raise ZeroDivisionError, w).
Proof.
  intros self pil_available save duration_arg width_arg fps_arg start_time
    stop_time optimize s t x w Hs Ht Hx Hcount.
  assert (Hraise : frame_sampling (start_frame s) (effective_frames s)
                     duration_arg fps_arg = Raise ZeroDivisionError).
  { unfold frame_sampling. rewrite Hx. simpl. rewrite Hcount. reflexivity. }
  split; [exact Hraise|].
  unfold create_gif.
  rewrite (bind_lift_Ok _ _ _ _ Hs), (bind_lift_Ok _ _ _ _ Ht).
  apply bind_lift_Raise. exact Hraise.
Qed.

(** The failing request: the whole 120 s source, output duration 0.0625 s
    at 10 fps, so that [int(0.625)] is 0. *)
Lemma C2_zero_output_frames_divides_by_zero_witness :
  frame_sampling 0 3600 0.0625 10 = Raise ZeroDivisionError
  /\ create_gif hd_source true saves 0.0625 None 10 0 None true
       initial_world
     = (Raise ZeroDivisionError, initial_world).
Proof.
  apply (C2_zero_output_frames_divides_by_zero hd_source true saves
           0.0625%float None 10 0%float None true
           {| stop_time' := 120; effective_duration := 120;
              start_frame := 0; end_frame := 3600;
              effective_frames := 3600 |}
           {| scale_factor := 1; new_width := 1920; new_height := 1080 |}
           0.625%float initial_world).
  - vm_compute. reflexivity.
  - reflexivity.
  - vm_compute. reflexivity.
  - vm_compute. reflexivity.
Defined.

(** C3, on the code: the first 1/64 s of the 30 fps source is a valid
    segment (0 < 0.015625) that spans no whole frame, so the 50 indices of a
    5 s, 10 fps request are all -1, none of them within
    [start_frame, start_frame + effective_frames). On a segment of at least
    one frame the indices do stay within it
    ([frame_sampling_within_segment]); the clamp of line 86 misses the
    segment without frames. *)
Theorem C3_indices_leave_an_empty_segment :
  exists s p,
    (0 <? clamp_stop hd_source (Some 0.015625%float))%float = true
    /\ time_parameters hd_source 0 (Some 0.015625%float) = Ok s
    /\ start_frame s = 0
    /\ effective_frames s = 0
    /\ frame_sampling (start_frame s) (effective_frames s) 5 10 = Ok p
    /\ output_frames_count p = 50
    /\ length (frame_indices p) = 50%nat
    /\ frame_indices p = repeat (-1) 50
    /\ Forall (fun k => ~ (start_frame s <= k
                           < start_frame s + effective_frames s))
         (frame_indices p).
Proof.
  eexists. eexists. split; [vm_compute; reflexivity|].
  split; [vm_compute; reflexivity|].
  split; [reflexivity|]. split; [reflexivity|].
  split; [vm_compute; reflexivity|].
  split; [reflexivity|]. split; [reflexivity|]. split; [reflexivity|].
  simpl. repeat constructor; lia.
Qed.

(** On a segment without frames every position gets the index
    [start_frame + min(int(i * 0.0), -1)]. *)
Lemma frame_index_empty_segment start_frame i :
  0 <= i < max_double ->
  frame_index start_frame 0 0 i = Ok (start_frame - 1).
Proof.
  intros Hi. destruct (int_mul_float_zero i Hi) as (x & Hx & Hk).
  unfold frame_index. rewrite Hx. simpl. rewrite Hk. reflexivity.
Qed.

(** C9: when the clamped segment is not empty in time
    ([start_time < stop_time]) but both ends truncate to the same source
    frame, and at least one output frame is asked for, the sampling succeeds
    and every one of the [output_frames_count] indices is
    [start_frame - 1]: below the segment start, and negative when the
    segment starts at frame 0. These are the indices [create_gif] seeks.
    The frame positions are [int(time * fps)] as in lines 66 and 67, which
    is the floor for the non-negative times and frame rate of a request
    ([int_is_floor_of_nonneg_product]). *)
Theorem C9_zero_frame_segment_samples_before_start :
  forall self start_time stop_time duration_arg fps_arg sf x n,
    (start_time <? clamp_stop self stop_time)%float = true ->
    Py.int_of_float (start_time * fps self)%float = Ok sf ->
    Py.int_of_float (clamp_stop self stop_time * fps self)%float = Ok sf ->
    Py.float_mul_int duration_arg fps_arg = Ok x ->
    Py.int_of_float x = Ok n ->
    1 <= n ->
    exists s p,
      time_parameters self start_time stop_time = Ok s
      /\ start_frame s = sf
      /\ effective_frames s = 0
      /\ frame_sampling (start_frame s) (effective_frames s) duration_arg
           fps_arg = Ok p
      /\ output_frames_count p = n
      /\ frame_indices p = repeat (sf - 1) (Z.to_nat n)
      /\ Forall (fun k => k = sf - 1 /\ k < sf /\ (sf = 0 -> k < 0))
           (frame_indices p)
      /\ forall pil_available save width_arg optimize w l w',
           create_gif self pil_available save duration_arg width_arg fps_arg
             start_time stop_time optimize w = (Ok l, w') ->
           frame_indices (samp l) = repeat (sf - 1) (Z.to_nat n).
Proof.
  intros self start_time stop_time duration_arg fps_arg sf x n
    Hlt Hstart Hend Hx Hn Hpos.
  assert (Hs : time_parameters self start_time stop_time
               = Ok {| stop_time' := clamp_stop self stop_time;
                       effective_duration :=
                         (clamp_stop self stop_time - start_time)%float;
                       start_frame := sf; end_frame := sf;
                       effective_frames := sf - sf |}).
  { unfold time_parameters. rewrite (ltb_not_geb _ _ Hlt).
    rewrite Hstart. simpl. rewrite Hend. reflexivity. }
  assert (Hidx : Py.comprehension (frame_index sf 0 0) (Py.range n)
                 = Ok (repeat (sf - 1) (Z.to_nat n))).
  { rewrite <- (range_length n). apply comprehension_const.
    intros i Hi. apply range_In in Hi.
    apply frame_index_empty_segment.
    pose proof (int_of_float_le_max x n Hn). lia. }
  assert (Hp : frame_sampling sf 0 duration_arg fps_arg
               = Ok {| output_frames_count := n; frame_interval := 0;
                       frame_indices := repeat (sf - 1) (Z.to_nat n) |}).
  { unfold frame_sampling. rewrite Hx. simpl. rewrite Hn. simpl.
    rewrite (int_truediv_zero n Hpos). simpl. rewrite Hidx. reflexivity. }
  exists {| stop_time' := clamp_stop self stop_time;
            effective_duration :=
              (clamp_stop self stop_time - start_time)%float;
            start_frame := sf; end_frame := sf;
            effective_frames := sf - sf |},
         {| output_frames_count := n; frame_interval := 0;
            frame_indices := repeat (sf - 1) (Z.to_nat n) |}.
  split; [exact Hs|]. split; [reflexivity|].
  split; [simpl; lia|].
  split; [simpl; rewrite Z.sub_diag; exact Hp|].
  split; [reflexivity|]. split; [reflexivity|]. simpl. split.
  - apply Forall_forall. intros k Hk. apply repeat_spec in Hk. lia.
  - intros pil_available save width_arg optimize w l w' Hrun.
    apply create_gif_Ok_inv in Hrun.
    destruct Hrun as (s' & t & p' & fr & w1 & fd & wr & Hs' & _ & Hp' & _
                      & _ & _ & _ & _ & _ & ->).
    rewrite Hs in Hs'. injection Hs' as <-. simpl in Hp'.
    rewrite Z.sub_diag in Hp'. rewrite Hp in Hp'. injection Hp' as <-.
    reflexivity.
Qed.

(** The first 1/64 s of the 30 fps source, 5 s of output at 10 fps. *)
Lemma C9_zero_frame_segment_samples_before_start_witness :
  exists s p,
    time_parameters hd_source 0 (Some 0.015625%float) = Ok s
    /\ start_frame s = 0
    /\ effective_frames s = 0
    /\ frame_sampling (start_frame s) (effective_frames s) 5 10 = Ok p
    /\ output_frames_count p = 50
    /\ frame_indices p = repeat (0 - 1) (Z.to_nat 50).
Proof.
  destruct (C9_zero_frame_segment_samples_before_start hd_source 0%float
              (Some 0.015625%float) 5%float 10 0 50%float 50)
    as (s & p & Hs & Hsf & Hef & Hp & Hn & Hidx & _).
  - vm_compute. reflexivity.
  - vm_compute. reflexivity.
  - vm_compute. reflexivity.
  - vm_compute. reflexivity.
  - vm_compute. reflexivity.
  - lia.
  - exists s, p. repeat split; assumption.
Defined.

(** ** Encoder selection (lines 108-114 and 126-142) *)

(** Line 109: [frame_duration = 1.0 / fps]. *)
Lemma frame_duration_inv fps_arg fd :
  Py.float_div_int 1 fps_arg = Ok fd ->
  exists fps_f, Py.float_of_int fps_arg = Ok fps_f /\ fd = (1 / fps_f)%float.
Proof.
  unfold Py.float_div_int. intros H.
  apply rbind_Ok_inv in H. destruct H as (fps_f & Hf & H).
  unfold Py.float_truediv in H.
  destruct (fps_f =? 0)%float; [discriminate H|].
  injection H as <-. exists fps_f. split; [exact Hf | reflexivity].
Qed.

(** * Beyond the claims *)

(** ** The frame loop (lines 89-105) *)

(** [cv2.resize] is asked for the same target on every frame, so it
    refuses every frame or none. *)
Lemma output_frame_refused t frame :
  target_refused t = true -> output_frame t frame = Raise cv2_error.
Proof.
  unfold target_refused, output_frame, resize. intros H.
  apply andb_true_iff in H. destruct H as [Hscale Hdims].
  rewrite Hscale. apply negb_true_iff in Hdims. rewrite Hdims. reflexivity.
Qed.

Lemma output_frame_accepted t frame :
  target_refused t = false -> exists r, output_frame t frame = Ok r.
Proof.
  unfold target_refused, output_frame, resize. intros H.
  destruct (negb (scale_factor t =? 1)%float); [|eexists; reflexivity].
  simpl in H. apply negb_false_iff in H. rewrite H. eexists. reflexivity.
Qed.

Lemma comprehension_accepted t frames :
  target_refused t = false ->
  exists out, Py.comprehension (output_frame t) frames = Ok out.
Proof.
  intros Ht. induction frames as [|frame rest IH]; simpl.
  - eexists. reflexivity.
  - destruct (output_frame_accepted t frame Ht) as (r & ->).
    destruct IH as (out & ->). eexists. reflexivity.
Qed.

(** Whether a target is refused, by its scale factor and its size. *)
Lemma target_refused_iff t :
  target_refused t = true
  <-> (scale_factor t =? 1)%float = false
      /\ (new_width t <= 0 \/ new_height t <= 0).
Proof.
  unfold target_refused. rewrite andb_true_iff, !negb_true_iff.
  rewrite andb_false_iff, !Z.ltb_ge. reflexivity.
Qed.

(** The loop with any frames collected so far, when no frame is refused:
    one seek and one read per index, and the frames that could be read. *)
Lemma collect_frames_run :
  forall self t indices acc w out,
    Py.comprehension (output_frame t) (decoded (cap self) indices) = Ok out ->
    collect_frames self t acc indices w
    = (Ok (acc ++ out),
       {| cap_pos := position_after (cap self) (cap_pos w) indices;
          trace := trace w ++ seeks_and_reads (cap self) indices |}).
Proof.
  intros self t indices.
  induction indices as [|idx rest IH]; intros acc w out Hout.
  - simpl in Hout. injection Hout as <-. simpl. unfold ret.
    rewrite !app_nil_r. destruct w. reflexivity.
  - simpl collect_frames. unfold bind at 1.
    unfold decoded, seeks_and_reads, position_after in *. simpl in *.
    destruct (cap self idx) as [frame|] eqn:Hread.
    + rewrite (process_frame_read _ _ _ _ _ _ Hread).
      simpl in Hout.
      apply rbind_Ok_inv in Hout. destruct Hout as (r & Hr & Hout).
      apply rbind_Ok_inv in Hout. destruct Hout as (rs & Hrs & Hout).
      injection Hout as <-. rewrite Hr. simpl.
      rewrite (IH _ _ _ Hrs). simpl.
      rewrite <- !app_assoc. reflexivity.
    + rewrite (process_frame_skip _ _ _ _ _ Hread).
      rewrite (IH _ _ _ Hout). simpl.
      rewrite <- !app_assoc. reflexivity.
Qed.

(** The loop on a target that [cv2.resize] refuses: it stops at the first
    frame that can be read. *)
Lemma collect_frames_refused :
  forall self t indices acc w,
    target_refused t = true ->
    decoded (cap self) indices <> [] ->
    collect_frames self t acc indices w
    = (Raise cv2_error,
       {| cap_pos := position_after (cap self) (cap_pos w)
                       (through_first_readable (cap self) indices);
          trace := trace w
                   ++ seeks_and_reads (cap self)
                        (through_first_readable (cap self) indices) |}).
Proof.
  intros self t indices acc w Ht.
  revert acc w. induction indices as [|idx rest IH]; intros acc w Hdec.
  - exfalso. apply Hdec. reflexivity.
  - simpl collect_frames. unfold bind at 1.
    unfold decoded, seeks_and_reads, position_after in *. simpl in *.
    destruct (cap self idx) as [frame|] eqn:Hread.
    + rewrite (process_frame_read _ _ _ _ _ _ Hread).
      rewrite (output_frame_refused t frame Ht). simpl.
      rewrite Hread. rewrite <- !app_assoc. reflexivity.
    + rewrite (process_frame_skip _ _ _ _ _ Hread).
      rewrite (IH _ _ Hdec). simpl. rewrite Hread.
      rewrite <- !app_assoc. reflexivity.
Qed.

(** The two ways the loop ends. *)
Lemma collect_frames_cases self t indices acc w :
  (exists out,
      Py.comprehension (output_frame t) (decoded (cap self) indices) = Ok out
      /\ collect_frames self t acc indices w
         = (Ok (acc ++ out),
            {| cap_pos := position_after (cap self) (cap_pos w) indices;
               trace := trace w ++ seeks_and_reads (cap self) indices |}))
  \/ (target_refused t = true
      /\ decoded (cap self) indices <> []
      /\ Py.comprehension (output_frame t) (decoded (cap self) indices)
         = Raise cv2_error
      /\ collect_frames self t acc indices w
         = (Raise cv2_error,
            {| cap_pos := position_after (cap self) (cap_pos w)
                            (through_first_readable (cap self) indices);
               trace := trace w
                        ++ seeks_and_reads (cap self)
                             (through_first_readable (cap self) indices) |})).
Proof.
  destruct (target_refused t) eqn:Ht.
  - destruct (decoded (cap self) indices) as [|frame rest] eqn:Hdec.
    + left. exists []. split; [reflexivity|].
      apply collect_frames_run. rewrite Hdec. reflexivity.
    + right. split; [reflexivity|]. split; [discriminate|]. split.
      * simpl. rewrite (output_frame_refused t frame Ht). reflexivity.
      * apply collect_frames_refused; [exact Ht|].
        rewrite Hdec. discriminate.
  - left.
    destruct (comprehension_accepted t (decoded (cap self) indices) Ht)
      as (out & Hout).
    exists out. split; [exact Hout|]. apply collect_frames_run. exact Hout.
Qed.

Lemma seeks_and_reads_length v indices :
  length (seeks_and_reads v indices) = (2 * length indices)%nat.
Proof.
  induction indices as [|idx rest IH]; simpl; [reflexivity|].
  rewrite IH. lia.
Qed.

(** X1: The loop of lines 89 to 105 is a filter and a map: it ends as the
    list of what lines 98 to 103 make of each frame that could be read
    does, with that list or with the exception of [cv2.resize]. When it
    returns it has sought and read once per index, in order. It returns
    whenever no resize is asked for or the target has a positive width and
    height; on a target with a width or a height that is not positive it
    raises [cv2.error] at the first frame that can be read and looks at no
    further index. *)
Theorem frame_loop_outcome :
  forall self t indices w,
    fst (collect_frames self t [] indices w)
    = Py.comprehension (output_frame t) (decoded (cap self) indices)
    /\ (forall out w',
          collect_frames self t [] indices w = (Ok out, w') ->
          trace w' = trace w ++ seeks_and_reads (cap self) indices
          /\ cap_pos w' = position_after (cap self) (cap_pos w) indices
          /\ length (seeks_and_reads (cap self) indices)
             = (2 * length indices)%nat)
    /\ ((scale_factor t =? 1)%float = true
        \/ (0 < new_width t /\ 0 < new_height t) ->
        exists out w', collect_frames self t [] indices w = (Ok out, w'))
    /\ ((scale_factor t =? 1)%float = false ->
        new_width t <= 0 \/ new_height t <= 0 ->
        decoded (cap self) indices <> [] ->
        collect_frames self t [] indices w
        = (Raise cv2_error,
           {| cap_pos := position_after (cap self) (cap_pos w)
                           (through_first_readable (cap self) indices);
              trace := trace w
                       ++ seeks_and_reads (cap self)
                            (through_first_readable (cap self) indices) |})).
Proof.
  intros self t indices w.
  destruct (collect_frames_cases self t indices [] w)
    as [(out & Hout & Hrun) | (Ht & Hdec & Hout & Hrun)].
  - split; [rewrite Hrun, Hout; reflexivity|].
    split.
    { intros out' w' H. rewrite Hrun in H. injection H as _ <-.
      repeat split. apply seeks_and_reads_length. }
    split; [intros _; eexists; eexists; exact Hrun|].
    intros Hscale Hdims Hdec.
    apply collect_frames_refused; [|exact Hdec].
    apply target_refused_iff. split; assumption.
  - split; [rewrite Hrun, Hout; reflexivity|].
    split; [intros out' w' H; rewrite Hrun in H; discriminate H|].
    split; [|intros _ _ _; exact Hrun].
    intros Hfine. exfalso.
    apply target_refused_iff in Ht. destruct Ht as [Hscale Hdims].
    destruct Hfine as [Hone | [Hw Hh]]; [congruence | lia].
Qed.

(** A maximum width of 1 on the 1920x1080 source: the target is 1 x 0, and
    the first frame that is read is refused. *)
Lemma frame_loop_outcome_witness :
  resize_parameters hd_source (Some 1)
  = Ok {| scale_factor := (1 / 1920)%float; new_width := 1;
          new_height := 0 |}
  /\ collect_frames hd_source
       {| scale_factor := (1 / 1920)%float; new_width := 1;
          new_height := 0 |} [] [-1; 900; 960] initial_world
     = (Raise cv2_error,
        {| cap_pos := 901;
           trace := [CapSet (-1); CapRead false; CapSet 900;
                     CapRead true] |}).
Proof.
  split; [vm_compute; reflexivity|].
  apply (proj2 (proj2 (proj2
           (frame_loop_outcome hd_source
              {| scale_factor := (1 / 1920)%float; new_width := 1;
                 new_height := 0 |} [-1; 900; 960] initial_world)))).
  - vm_compute. reflexivity.
  - right. simpl. lia.
  - vm_compute. discriminate.
Defined.

Lemma decoded_length v indices :
  (length (decoded v indices) <= length indices)%nat.
Proof.
  induction indices as [|idx rest IH]; simpl; [lia|].
  rewrite length_app. destruct (v idx); simpl; lia.
Qed.

Lemma decoded_length_all_readable v indices :
  (forall idx, In idx indices -> v idx <> None) ->
  length (decoded v indices) = length indices.
Proof.
  induction indices as [|idx rest IH]; intros Hall; simpl; [reflexivity|].
  rewrite length_app, IH by (intros i Hi; apply Hall; right; exact Hi).
  destruct (v idx) eqn:Hread; [reflexivity|].
  exfalso. apply (Hall idx (or_introl eq_refl)). exact Hread.
Qed.

Lemma seeks_and_reads_no_write v indices :
  filter is_write (seeks_and_reads v indices) = [].
Proof.
  induction indices as [|idx rest IH]; simpl; [reflexivity|]. exact IH.
Qed.

(** A loop that returns went over every index. *)
Lemma collect_frames_Ok_inv self t indices w fr w1 :
  collect_frames self t [] indices w = (Ok fr, w1) ->
  Py.comprehension (output_frame t) (decoded (cap self) indices) = Ok fr
  /\ w1 = {| cap_pos := position_after (cap self) (cap_pos w) indices;
             trace := trace w ++ seeks_and_reads (cap self) indices |}.
Proof.
  intros H.
  destruct (collect_frames_cases self t indices [] w)
    as [(out & Hout & Hrun) | (_ & _ & _ & Hrun)];
    rewrite Hrun in H; [|discriminate H].
  injection H as <- <-. split; [exact Hout | reflexivity].
Qed.

(** ** What a conversion leaves behind *)

(** X2: The frames handed to the writer are the sampled frames that could be
    read, in sampling order, each converted (and resized when the scale
    factor is not 1.0): at most [output_frames_count] of them, and exactly
    that many when every sampled index can be read. *)
Theorem create_gif_frames_are_readable_samples :
  forall self pil_available save duration_arg width_arg fps_arg start_time
         stop_time optimize w l w',
    create_gif self pil_available save duration_arg width_arg fps_arg
      start_time stop_time optimize w = (Ok l, w') ->
    Py.comprehension (output_frame (target l))
      (decoded (cap self) (frame_indices (samp l)))
    = Ok (frames l)
    /\ (length (frames l) <= Z.to_nat (output_frames_count (samp l)))%nat
    /\ ((forall idx, In idx (frame_indices (samp l)) ->
                     cap self idx <> None) ->
        length (frames l) = Z.to_nat (output_frames_count (samp l))).
Proof.
  intros self pil_available save duration_arg width_arg fps_arg start_time
    stop_time optimize w l w' Hrun.
  apply create_gif_Ok_inv in Hrun.
  destruct Hrun as (s & t & p & fr & w1 & fd & wr & _ & _ & Hp & Hfr & _ & _
                    & _ & _ & _ & ->).
  apply collect_frames_Ok_inv in Hfr. destruct Hfr as [Hout _].
  destruct (frame_sampling_count_and_clamp _ _ _ _ _ Hp) as (_ & Hlen & _).
  simpl. split; [exact Hout|].
  rewrite (comprehension_length _ _ _ Hout), <- Hlen. split.
  - apply decoded_length.
  - apply decoded_length_all_readable.
Qed.

Lemma create_gif_frames_are_readable_samples_witness :
  exists l w',
    create_gif hd_source true saves 0.25 (Some 300) 10 30 (Some 90%float)
      true initial_world = (Ok l, w')
    /\ length (frames l) = Z.to_nat (output_frames_count (samp l)).
Proof.
  eassert (Hrun : create_gif hd_source true saves 0.25 (Some 300) 10 30
                    (Some 90%float) true initial_world = (Ok _, _))
    by (vm_compute; reflexivity).
  destruct (create_gif_frames_are_readable_samples _ _ _ _ _ _ _ _ _ _ _ _
              Hrun) as (_ & _ & Hall).
  eexists. eexists. split; [exact Hrun|]. apply Hall.
  simpl. intros idx [<- | [<- | []]]; discriminate.
Defined.

(** The trace of a conversion that returns. *)
Lemma create_gif_Ok_trace self pil_available save duration_arg width_arg
    fps_arg start_time stop_time optimize w l w' :
  create_gif self pil_available save duration_arg width_arg fps_arg
    start_time stop_time optimize w = (Ok l, w') ->
  exists wr,
    trace w'
    = trace w ++ seeks_and_reads (cap self) (frame_indices (samp l))
      ++ [Echo; Write wr]
    /\ save wr = Ok tt
    /\ (optimize && pil_available = false ->
        wr = imageio_mimsave (frames l) (frame_duration l) 0).
Proof.
  intros Hrun.
  apply create_gif_Ok_inv in Hrun.
  destruct Hrun as (s & t & p & fr & w1 & fd & wr & _ & _ & _ & Hfr & _
                    & Hsave & -> & Hfallback & _ & ->).
  apply collect_frames_Ok_inv in Hfr. destruct Hfr as [_ ->].
  exists wr. simpl. split; [|split; [exact Hsave | exact Hfallback]].
  rewrite <- !app_assoc. reflexivity.
Qed.

Lemma writes_of_Ok_trace (before : list event) v indices wr :
  filter is_write (before ++ seeks_and_reads v indices ++ [Echo; Write wr])
  = filter is_write before ++ [Write wr].
Proof.
  rewrite !filter_app, seeks_and_reads_no_write. reflexivity.
Qed.

(** X3: A conversion that returns has sought and read once per sampled index,
    then printed its message, then called a writer: exactly once, as the
    last thing it did. *)
Theorem create_gif_writes_once_at_the_end :
  forall self pil_available save duration_arg width_arg fps_arg start_time
         stop_time optimize w l w',
    create_gif self pil_available save duration_arg width_arg fps_arg
      start_time stop_time optimize w = (Ok l, w') ->
    exists wr,
      trace w'
      = trace w ++ seeks_and_reads (cap self) (frame_indices (samp l))
        ++ [Echo; Write wr]
      /\ filter is_write (trace w') = filter is_write (trace w) ++ [Write wr].
Proof.
  intros self pil_available save duration_arg width_arg fps_arg start_time
    stop_time optimize w l w' Hrun.
  destruct (create_gif_Ok_trace _ _ _ _ _ _ _ _ _ _ _ _ Hrun)
    as (wr & Htrace & _).
  exists wr. split; [exact Htrace|].
  rewrite Htrace. apply writes_of_Ok_trace.
Qed.

Lemma create_gif_writes_once_at_the_end_witness :
  exists l w' wr,
    create_gif hd_source false saves 0.25 None 10 0 None true initial_world
    = (Ok l, w')
    /\ filter is_write (trace w') = [Write wr].
Proof.
  eassert (Hrun : create_gif hd_source false saves 0.25 None 10 0 None true
                    initial_world = (Ok _, _))
    by (vm_compute; reflexivity).
  destruct (create_gif_writes_once_at_the_end _ _ _ _ _ _ _ _ _ _ _ _ Hrun)
    as (wr & _ & Hwr).
  eexists. eexists. exists wr. split; [exact Hrun | exact Hwr].
Defined.

(** [create_gif] once the loop has returned. *)
Lemma create_gif_after_loop self pil_available save duration_arg width_arg
    fps_arg start_time stop_time optimize s t p w fr w1 :
  time_parameters self start_time stop_time = Ok s ->
  resize_parameters self width_arg = Ok t ->
  frame_sampling (start_frame s) (effective_frames s) duration_arg fps_arg
  = Ok p ->
  collect_frames self t [] (frame_indices p) w = (Ok ([] ++ fr), w1) ->
  create_gif self pil_available save duration_arg width_arg fps_arg
    start_time stop_time optimize w
  = match Py.float_div_int 1 fps_arg with
    | Raise e =>
        (Raise e, {| cap_pos := cap_pos w1; trace := trace w1 ++ [Echo] |})
    | Ok fd =>
        match
          (if optimize && pil_available
           then _save_optimized_gif save fr fd
           else call save (imageio_mimsave fr fd 0))
            {| cap_pos := cap_pos w1; trace := trace w1 ++ [Echo] |}
        with
        | (Ok _, w2) =>
            (Ok {| seg := s; target := t; samp := p; frames := fr;
                   frame_duration := fd |}, w2)
        | (Raise e, w2) => (Raise e, w2)
        end
    end.
Proof.
  intros Hs Ht Hp Hrun.
  rewrite (create_gif_after_sampling _ _ _ _ _ _ _ _ _ _ _ _ _ Hs Ht Hp).
  unfold bind at 1. rewrite Hrun. simpl app.
  unfold bind at 1. unfold emit at 1.
  destruct (Py.float_div_int 1 fps_arg) as [fd|e]; reflexivity.
Qed.

(** [create_gif] from the loop on, once the time window, the resize target
    and the sampling are known: the loop stops on a refused target, or
    line 109 raises, or the optimized path has no frame, or one call of a
    writer is made and [create_gif] ends as that call ends. *)
Lemma create_gif_after_sampling_cases self pil_available save duration_arg
    width_arg fps_arg start_time stop_time optimize s t p w :
  time_parameters self start_time stop_time = Ok s ->
  resize_parameters self width_arg = Ok t ->
  frame_sampling (start_frame s) (effective_frames s) duration_arg fps_arg
  = Ok p ->
  (target_refused t = true
   /\ decoded (cap self) (frame_indices p) <> []
   /\ create_gif self pil_available save duration_arg width_arg fps_arg
        start_time stop_time optimize w
      = (Raise cv2_error,
         {| cap_pos := position_after (cap self) (cap_pos w)
                         (through_first_readable (cap self)
                            (frame_indices p));
            trace := trace w
                     ++ seeks_and_reads (cap self)
                          (through_first_readable (cap self)
                             (frame_indices p)) |}))
  \/ (exists fr,
        Py.comprehension (output_frame t)
          (decoded (cap self) (frame_indices p)) = Ok fr
        /\ match Py.float_div_int 1 fps_arg with
           | Raise e =>
               create_gif self pil_available save duration_arg width_arg
                 fps_arg start_time stop_time optimize w
               = (Raise e,
                  {| cap_pos := position_after (cap self) (cap_pos w)
                                  (frame_indices p);
                     trace := (trace w
                               ++ seeks_and_reads (cap self)
                                    (frame_indices p)) ++ [Echo] |})
           | Ok fd =>
               (optimize && pil_available = true
                /\ fr = []
                /\ create_gif self pil_available save duration_arg width_arg
                     fps_arg start_time stop_time optimize w
                   = (Raise IndexError,
                      {| cap_pos := position_after (cap self) (cap_pos w)
                                      (frame_indices p);
                         trace := (trace w
                                   ++ seeks_and_reads (cap self)
                                        (frame_indices p)) ++ [Echo] |}))
               \/ (exists wr,
                     create_gif self pil_available save duration_arg
                       width_arg fps_arg start_time stop_time optimize w
                     = ((_ <- save wr ;;
                         Ok {| seg := s; target := t; samp := p;
                               frames := fr; frame_duration := fd |})%result,
                        {| cap_pos := position_after (cap self) (cap_pos w)
                                        (frame_indices p);
                           trace := ((trace w
                                      ++ seeks_and_reads (cap self)
                                           (frame_indices p)) ++ [Echo])
                                    ++ [Write wr] |})
                     /\ (optimize && pil_available = false ->
                         wr = imageio_mimsave fr fd 0)
                     /\ (optimize && pil_available = true ->
                         exists first rest,
                           fr = first :: rest
                           /\ wr = PIL_save first rest (fd * 1000)%float 0
                                     true 85 true))
           end).
Proof.
  intros Hs Ht Hp.
  destruct (collect_frames_cases self t (frame_indices p) [] w)
    as [(fr & Hout & Hrun) | (Hrefused & Hdec & _ & Hrun)].
  - right. exists fr. split; [exact Hout|].
    pose proof (create_gif_after_loop self pil_available save duration_arg
                  width_arg fps_arg start_time stop_time optimize s t p w
                  fr _ Hs Ht Hp Hrun) as Hcg.
    simpl cap_pos in Hcg. simpl trace in Hcg.
    destruct (Py.float_div_int 1 fps_arg) as [fd|e]; [|exact Hcg].
    destruct (save_step save (optimize && pil_available) fr fd
                {| cap_pos := position_after (cap self) (cap_pos w)
                                (frame_indices p);
                   trace := (trace w
                             ++ seeks_and_reads (cap self) (frame_indices p))
                            ++ [Echo] |})
      as [(Hopt & Hnil & Hraise) | (wr & Hcall & Hfallback & Hoptimized)].
    + left. rewrite Hraise in Hcg. repeat split; assumption.
    + right. exists wr. rewrite Hcall in Hcg. rewrite Hcg.
      split; [|split; assumption].
      destruct (save wr) as [[]|e]; reflexivity.
  - left. split; [exact Hrefused|]. split; [exact Hdec|].
    rewrite (create_gif_after_sampling _ _ _ _ _ _ _ _ _ _ _ _ _ Hs Ht Hp).
    unfold bind at 1. rewrite Hrun. reflexivity.
Qed.

(** The calls of a writer in a conversion that raises: none, or one, which
    is the last thing that was done and is what raised. *)
Lemma create_gif_Raise_trace self pil_available save duration_arg width_arg
    fps_arg start_time stop_time optimize w e w' :
  create_gif self pil_available save duration_arg width_arg fps_arg
    start_time stop_time optimize w = (Raise e, w') ->
  filter is_write (trace w') = filter is_write (trace w)
  \/ (exists wr before,
        trace w' = before ++ [Write wr]
        /\ filter is_write before = filter is_write (trace w)
        /\ save wr = Raise e
        /\ (optimize && pil_available = false ->
            exists fr fd, wr = imageio_mimsave fr fd 0)).
Proof.
  destruct (time_parameters self start_time stop_time) as [s|e1] eqn:Hs.
  2:{ unfold create_gif. rewrite (bind_lift_Raise _ _ _ _ Hs).
      intros H. injection H as _ <-. left. reflexivity. }
  destruct (resize_parameters self width_arg) as [t|e2] eqn:Ht.
  2:{ unfold create_gif.
      rewrite (bind_lift_Ok _ _ _ _ Hs), (bind_lift_Raise _ _ _ _ Ht).
      intros H. injection H as _ <-. left. reflexivity. }
  destruct (frame_sampling (start_frame s) (effective_frames s) duration_arg
              fps_arg) as [p|e3] eqn:Hp.
  2:{ unfold create_gif.
      rewrite (bind_lift_Ok _ _ _ _ Hs), (bind_lift_Ok _ _ _ _ Ht),
        (bind_lift_Raise _ _ _ _ Hp).
      intros H. injection H as _ <-. left. reflexivity. }
  assert (Hquiet : forall v indices,
             filter is_write ((trace w ++ seeks_and_reads v indices) ++ [Echo])
             = filter is_write (trace w)).
  { intros v indices.
    rewrite !filter_app, seeks_and_reads_no_write. simpl.
    rewrite !app_nil_r. reflexivity. }
  destruct (create_gif_after_sampling_cases self pil_available save
              duration_arg width_arg fps_arg start_time stop_time optimize
              s t p w Hs Ht Hp)
    as [(_ & _ & Hrun) | (fr & _ & Hrun)].
  - rewrite Hrun. intros H. injection H as _ <-. left. simpl.
    rewrite filter_app, seeks_and_reads_no_write. apply app_nil_r.
  - destruct (Py.float_div_int 1 fps_arg) as [fd|e4].
    2:{ rewrite Hrun. intros H. injection H as _ <-. left. apply Hquiet. }
    destruct Hrun as [(_ & _ & Hrun) | (wr & Hrun & Hfallback & _)].
    + rewrite Hrun. intros H. injection H as _ <-. left. apply Hquiet.
    + rewrite Hrun. destruct (save wr) as [[]|e5] eqn:Hsave;
        [discriminate|].
      intros H. injection H as <- <-. right.
      eexists. eexists. split; [reflexivity|].
      split; [apply Hquiet|]. split; [exact Hsave|].
      intros Hpath. eexists. eexists. apply (Hfallback Hpath).
Qed.

(** X4: A conversion that raises has called no writer, unless it is the
    call of the writer that raised: then that call is the only one, it is
    the last thing the conversion did, and the exception is the one the
    writer raised. So an exception that the writers do not raise leaves no
    call behind. *)
Theorem create_gif_failure_writes_nothing :
  forall self pil_available save duration_arg width_arg fps_arg start_time
         stop_time optimize w e w',
    create_gif self pil_available save duration_arg width_arg fps_arg
      start_time stop_time optimize w = (Raise e, w') ->
    (filter is_write (trace w') = filter is_write (trace w)
     \/ exists wr before,
          trace w' = before ++ [Write wr]
          /\ filter is_write before = filter is_write (trace w)
          /\ save wr = Raise e)
    /\ ((forall wr, save wr <> Raise e) ->
        filter is_write (trace w') = filter is_write (trace w)).
Proof.
  intros self pil_available save duration_arg width_arg fps_arg start_time
    stop_time optimize w e w' Hrun.
  destruct (create_gif_Raise_trace _ _ _ _ _ _ _ _ _ _ _ _ Hrun)
    as [Hnone | (wr & before & Htrace & Hbefore & Hsave & _)].
  - split; [left; exact Hnone | intros _; exact Hnone].
  - split.
    + right. exists wr, before. repeat split; assumption.
    + intros Hnever. exfalso. apply (Hnever wr). exact Hsave.
Qed.

(** The segment without frames of C3 on the optimized path, with writers
    that could only raise [OSError]: [IndexError], and no call. *)
Lemma create_gif_failure_writes_nothing_witness :
  exists w',
    create_gif hd_source true (refuses OSError) 5 None 10 0
      (Some 0.015625%float) true initial_world = (Raise IndexError, w')
    /\ filter is_write (trace w') = [].
Proof.
  eassert (Hrun : create_gif hd_source true (refuses OSError) 5 None 10 0
                    (Some 0.015625%float) true initial_world
                  = (Raise IndexError, _))
    by (vm_compute; reflexivity).
  eexists. split; [exact Hrun|].
  apply (proj2 (create_gif_failure_writes_nothing _ _ _ _ _ _ _ _ _ _ _ _
                  Hrun)).
  intros wr. discriminate.
Defined.

(** X5: When none of the sampled frames can be read, the optimized path fails
    on [pil_frames[0]] with [IndexError] after having printed its message,
    without a call of [Image.save]; the fallback path calls
    [imageio.mimsave] with the empty list and ends as that call ends. *)
Theorem optimized_path_needs_a_frame :
  forall self save duration_arg width_arg fps_arg start_time stop_time
         s t p fd w,
    time_parameters self start_time stop_time = Ok s ->
    resize_parameters self width_arg = Ok t ->
    frame_sampling (start_frame s) (effective_frames s) duration_arg fps_arg
    = Ok p ->
    (forall idx, In idx (frame_indices p) -> cap self idx = None) ->
    Py.float_div_int 1 fps_arg = Ok fd ->
    create_gif self true save duration_arg width_arg fps_arg start_time
      stop_time true w
    = (Raise IndexError,
       {| cap_pos := position_after (cap self) (cap_pos w) (frame_indices p);
          trace := (trace w ++ seeks_and_reads (cap self) (frame_indices p))
                   ++ [Echo] |})
    /\ create_gif self false save duration_arg width_arg fps_arg start_time
         stop_time true w
       = ((_ <- save (imageio_mimsave [] fd 0) ;;
           Ok {| seg := s; target := t; samp := p; frames := [];
                 frame_duration := fd |})%result,
          {| cap_pos := position_after (cap self) (cap_pos w)
                          (frame_indices p);
             trace := ((trace w ++ seeks_and_reads (cap self)
                                     (frame_indices p))
                       ++ [Echo]) ++ [Write (imageio_mimsave [] fd 0)] |}).
Proof.
  intros self save duration_arg width_arg fps_arg start_time stop_time
    s t p fd w Hs Ht Hp Hnone Hfd.
  assert (Hdec : decoded (cap self) (frame_indices p) = []).
  { clear Hp. induction (frame_indices p) as [|idx rest IH];
      [reflexivity|].
    simpl. rewrite (Hnone idx (or_introl eq_refl)). simpl.
    apply IH. intros i Hi. apply Hnone. right. exact Hi. }
  assert (Hloop : collect_frames self t [] (frame_indices p) w
                  = (Ok [],
                     {| cap_pos := position_after (cap self) (cap_pos w)
                                     (frame_indices p);
                        trace := trace w
                                 ++ seeks_and_reads (cap self)
                                      (frame_indices p) |})).
  { apply (collect_frames_run self t (frame_indices p) [] w []).
    rewrite Hdec. reflexivity. }
  split.
  - rewrite (create_gif_after_sampling _ _ _ _ _ _ _ _ _ _ _ _ _ Hs Ht Hp).
    unfold bind at 1. rewrite Hloop.
    unfold bind at 1. unfold emit at 1.
    rewrite (bind_lift_Ok _ _ _ _ Hfd). reflexivity.
  - rewrite (create_gif_after_sampling _ _ _ _ _ _ _ _ _ _ _ _ _ Hs Ht Hp).
    unfold bind at 1. rewrite Hloop.
    unfold bind at 1. unfold emit at 1.
    rewrite (bind_lift_Ok _ _ _ _ Hfd). unfold bind at 1.
    rewrite andb_false_r, call_run.
    destruct (save (imageio_mimsave [] fd 0)) as [[]|e]; reflexivity.
Qed.

(** The segment without frames of C3: every seek goes to frame -1, which
    the source does not have. Without PIL, and with an [imageio.mimsave]
    that raises [ValueError], the conversion raises it after that call. *)
Lemma optimized_path_needs_a_frame_witness :
  (exists w',
     create_gif hd_source true (refuses ValueError) 5 None 10 0
       (Some 0.015625%float) true initial_world = (Raise IndexError, w')
     /\ filter is_write (trace w') = [])
  /\ (exists w',
        create_gif hd_source false (refuses ValueError) 5 None 10 0
          (Some 0.015625%float) true initial_world = (Raise ValueError, w')
        /\ filter is_write (trace w')
           = [Write (imageio_mimsave [] (1 / 10)%float 0)]).
Proof.
  destruct (optimized_path_needs_a_frame hd_source (refuses ValueError)
              5%float None 10 0%float (Some 0.015625%float)
              {| stop_time' := 0.015625; effective_duration := 0.015625;
                 start_frame := 0; end_frame := 0; effective_frames := 0 |}
              {| scale_factor := 1; new_width := 1920; new_height := 1080 |}
              {| output_frames_count := 50; frame_interval := 0;
                 frame_indices := repeat (-1) 50 |}
              (1 / 10)%float initial_world) as [Hopt Hfallback].
  - vm_compute. reflexivity.
  - reflexivity.
  - vm_compute. reflexivity.
  - intros idx Hidx. apply repeat_spec in Hidx. subst idx. reflexivity.
  - vm_compute. reflexivity.
  - split.
    + eexists. split; [exact Hopt|]. vm_compute. reflexivity.
    + eexists. split; [exact Hfallback|]. vm_compute. reflexivity.
Defined.

(** ** What the writers are handed (lines 108-114 and 126-142) *)

(** X22: A conversion that returns has, as its last effect, handed its
    frames to one of the two writers with [loop=0] and the per-frame delay
    [1.0 / fps]: as it is to [imageio.mimsave], times 1000 to [Image.save].
    The same request on the other path makes, after the same seeks, reads
    and message, the call with the very same frame list, the same delay and
    [loop=0], and ends as that call ends: with the same local variables
    when it returns. *)
Theorem both_paths_hand_over_the_same_frames_and_delay :
  forall self pil_available save duration_arg width_arg fps_arg start_time
         stop_time optimize w l w',
    create_gif self pil_available save duration_arg width_arg fps_arg
      start_time stop_time optimize w = (Ok l, w') ->
    exists fps_f before,
      Py.float_of_int fps_arg = Ok fps_f
      /\ frame_duration l = (1 / fps_f)%float
      /\ (if optimize && pil_available
          then exists first rest,
                 frames l = first :: rest
                 /\ trace w'
                    = before ++
                      [Write (PIL_save first rest
                                (frame_duration l * 1000)%float 0 true 85
                                true)]
          else trace w'
               = before ++
                 [Write (imageio_mimsave (frames l) (frame_duration l) 0)])
      /\ (forall save',
            create_gif self false save' duration_arg width_arg fps_arg
              start_time stop_time optimize w
            = ((_ <- save' (imageio_mimsave (frames l) (frame_duration l) 0) ;;
                Ok l)%result,
               {| cap_pos := cap_pos w';
                  trace := before ++
                           [Write (imageio_mimsave (frames l)
                                     (frame_duration l) 0)] |}))
      /\ (forall save' first rest,
            frames l = first :: rest ->
            create_gif self true save' duration_arg width_arg fps_arg
              start_time stop_time true w
            = ((_ <- save' (PIL_save first rest
                              (frame_duration l * 1000)%float 0 true 85
                              true) ;;
                Ok l)%result,
               {| cap_pos := cap_pos w';
                  trace := before ++
                           [Write (PIL_save first rest
                                     (frame_duration l * 1000)%float 0 true
                                     85 true)] |})).
Proof.
  intros self pil_available save duration_arg width_arg fps_arg start_time
    stop_time optimize w l w' Hrun.
  apply create_gif_Ok_inv in Hrun.
  destruct Hrun as (s & t & p & fr & w1 & fd & wr & Hs & Ht & Hp & Hfr & Hfd
                    & Hsave & -> & Hfallback & Hoptimized & ->).
  destruct (frame_duration_inv _ _ Hfd) as (fps_f & Hf & Hfd').
  exists fps_f, (trace w1 ++ [Echo]). simpl.
  split; [exact Hf|]. split; [exact Hfd'|]. split; [|split].
  - destruct (optimize && pil_available).
    + destruct (Hoptimized eq_refl) as (first & rest & -> & ->).
      exists first, rest. split; reflexivity.
    + rewrite (Hfallback eq_refl). reflexivity.
  - intros save'.
    rewrite (create_gif_after_sampling _ _ _ _ _ _ _ _ _ _ _ _ _ Hs Ht Hp).
    unfold bind at 1. rewrite Hfr.
    unfold bind at 1. unfold emit at 1.
    rewrite (bind_lift_Ok _ _ _ _ Hfd). unfold bind at 1.
    rewrite andb_false_r, call_run.
    destruct (save' (imageio_mimsave fr fd 0)) as [[]|e]; reflexivity.
  - intros save' first rest Hfrs.
    rewrite (create_gif_after_sampling _ _ _ _ _ _ _ _ _ _ _ _ _ Hs Ht Hp).
    unfold bind at 1. rewrite Hfr.
    unfold bind at 1. unfold emit at 1.
    rewrite (bind_lift_Ok _ _ _ _ Hfd). unfold bind at 1.
    rewrite Hfrs. unfold _save_optimized_gif.
    change (true && true) with true. cbv iota. rewrite call_run.
    destruct (save' (PIL_save first rest (fd * 1000)%float 0 true 85 true))
      as [[]|e]; reflexivity.
Qed.

(** Two output frames of the 120 s source through PIL, and the same
    request without PIL. *)
Lemma both_paths_hand_over_the_same_frames_and_delay_witness :
  exists l w' fps_f before,
    create_gif hd_source true saves 0.25 (Some 300) 10 30 (Some 90%float)
      true initial_world = (Ok l, w')
    /\ Py.float_of_int 10 = Ok fps_f
    /\ frame_duration l = (1 / fps_f)%float
    /\ (exists first rest,
          frames l = first :: rest
          /\ trace w'
             = before ++
               [Write (PIL_save first rest (frame_duration l * 1000)%float
                         0 true 85 true)])
    /\ create_gif hd_source false saves 0.25 (Some 300) 10 30
         (Some 90%float) true initial_world
       = (Ok l,
          {| cap_pos := cap_pos w';
             trace := before ++
                      [Write (imageio_mimsave (frames l)
                                (frame_duration l) 0)] |}).
Proof.
  eassert (Hrun : create_gif hd_source true saves 0.25 (Some 300) 10 30
                    (Some 90%float) true initial_world = (Ok _, _))
    by (vm_compute; reflexivity).
  destruct (both_paths_hand_over_the_same_frames_and_delay _ _ _ _ _ _ _ _ _
              _ _ _ Hrun) as (fps_f & before & Hf & Hd & Hw & Hfb & _).
  eexists. eexists. exists fps_f, before.
  split; [exact Hrun|]. split; [exact Hf|]. split; [exact Hd|].
  split; [exact Hw | exact (Hfb saves)].
Defined.

(** ** The time window (lines 58-63) *)

Lemma SFcompare_refl_not_Lt x : SFcompare x x <> Some Lt.
Proof.
  destruct x as [s|s| |s m e]; simpl; try discriminate.
  - destruct s; discriminate.
  - destruct s; rewrite Z.compare_refl, Pos.compare_cont_refl; discriminate.
Qed.

(** No double is below itself. *)
Lemma ltb_irrefl (x : float) : (x <? x)%float = false.
Proof.
  rewrite ltb_spec. unfold SFltb.
  pose proof (SFcompare_refl_not_Lt (Prim2SF x)) as H.
  destruct (SFcompare (Prim2SF x) (Prim2SF x)) as [[| |]|];
    try reflexivity. exfalso. apply H. reflexivity.
Qed.

(** X7: The stop time used is never beyond the end of the source: it is the
    source duration when no stop time is given or the given one is later,
    and the given one otherwise. *)
Theorem clamp_stop_within_duration :
  forall self stop_time,
    (duration self <? clamp_stop self stop_time)%float = false
    /\ clamp_stop self None = duration self
    /\ (forall t, stop_time = Some t ->
          ((duration self <? t)%float = true
           /\ clamp_stop self stop_time = duration self)
          \/ ((duration self <? t)%float = false
              /\ clamp_stop self stop_time = t)).
Proof.
  intros self stop_time. unfold clamp_stop, Py.min_float. repeat split.
  - destruct stop_time as [t|].
    + destruct (duration self <? t)%float eqn:Hlt;
        [apply ltb_irrefl | exact Hlt].
    + rewrite ltb_irrefl. apply ltb_irrefl.
  - rewrite ltb_irrefl. reflexivity.
  - intros t ->. destruct (duration self <? t)%float; auto.
Qed.

(** A stop time of 500 s on the 120 s source. *)
Lemma clamp_stop_within_duration_witness :
  ((duration hd_source <? 500)%float = true
   /\ clamp_stop hd_source (Some 500%float) = duration hd_source)
  \/ ((duration hd_source <? 500)%float = false
      /\ clamp_stop hd_source (Some 500%float) = 500%float).
Proof.
  apply (clamp_stop_within_duration hd_source (Some 500%float)).
  reflexivity.
Defined.

(** ** Sampling (lines 81-87) *)

(** X9: A sampling that returns was asked for a number of output frames other
    than 0, has one index per output frame (none when the number is
    negative), and none of its indices is beyond the last frame of the
    segment. *)
Theorem frame_sampling_returns_count_indices :
  forall start_frame effective_frames duration_arg fps_arg p,
    frame_sampling start_frame effective_frames duration_arg fps_arg = Ok p ->
    output_frames_count p <> 0
    /\ length (frame_indices p) = Z.to_nat (output_frames_count p)
    /\ (output_frames_count p < 0 -> frame_indices p = [])
    /\ Forall (fun k => k <= start_frame + effective_frames - 1)
         (frame_indices p).
Proof.
  intros start_frame effective_frames duration_arg fps_arg p Hp.
  destruct (frame_sampling_count_and_clamp _ _ _ _ _ Hp)
    as ((x & Hx & Hn) & Hlen & Hclamp).
  split; [|split; [exact Hlen|split]].
  - intros Hzero. unfold frame_sampling in Hp.
    rewrite Hx in Hp. simpl in Hp. rewrite Hn, Hzero in Hp. simpl in Hp.
    unfold Py.int_truediv in Hp. simpl in Hp. discriminate Hp.
  - intros Hneg. apply length_zero_iff_nil. rewrite Hlen. lia.
  - eapply Forall_impl; [|exact Hclamp]. simpl. intros k Hk. lia.
Qed.

(** A negative frame rate: 5 s at -10 fps asks for -50 frames and samples
    none. *)
Lemma frame_sampling_returns_count_indices_witness :
  exists p,
    frame_sampling 900 1800 5 (-10) = Ok p
    /\ output_frames_count p = -50
    /\ frame_indices p = [].
Proof.
  eassert (Hp : frame_sampling 900 1800 5 (-10) = Ok _)
    by (vm_compute; reflexivity).
  destruct (frame_sampling_returns_count_indices _ _ _ _ _ Hp)
    as (_ & _ & Hneg & _).
  eexists. split; [exact Hp|]. split; [reflexivity|].
  apply Hneg. simpl. lia.
Defined.

(** The 2 s from 30 s to 32 s of the 30 fps source sampled 50 times: the
    stride is 1.2 and every index is one of the 60 frames 900..959. *)
Lemma frame_sampling_within_segment_witness :
  exists p,
    frame_sampling 900 60 5 10 = Ok p
    /\ Forall (fun k => 900 <= k < 900 + 60) (frame_indices p).
Proof.
  eassert (Hp : frame_sampling 900 60 5 10 = Ok _)
    by (vm_compute; reflexivity).
  eexists. split; [exact Hp|].
  apply (frame_sampling_within_segment 900 60 5%float 10 _); [lia|exact Hp].
Defined.

(** ** The constructor (lines 22-33) *)

(** Rounding an integer of either sign whose magnitude is below the largest
    double. *)
Lemma binary_round_int s m :
  Zpos m < max_double ->
  exists q e,
    binary_round prec emax s m 0 = S754_finite s q e
    /\ valid_binary (S754_finite s q e) = true.
Proof.
  intros Hmax. unfold binary_round. fold (digits m).
  rewrite Z.add_0_r.
  pose proof (digits_bounds m) as Hb.
  assert (Hdpos : 0 < digits m) by (unfold digits; lia).
  rewrite fexp_normal by lia.
  unfold shl_align. rewrite Z.sub_0_r.
  destruct (digits m - 53) as [|k|k] eqn:Hk.
  - apply binary_round_aux_finite; lia.
  - apply binary_round_aux_finite; [lia|lia|].
    rewrite Hk.
    assert (Hd : digits m <= 1024).
    { destruct (Z.le_gt_cases (digits m) 1024) as [H|H]; [exact H|].
      assert (2 ^ 1024 <= 2 ^ (digits m - 1))
        by (apply Z.pow_le_mono_r; lia).
      assert (max_double < 2 ^ 1024).
      { unfold max_double. change 1024 with (53 + 971).
        rewrite Z.pow_add_r by lia.
        assert (0 < 2 ^ 971) by (apply Z.pow_pos_nonneg; lia). nia. }
      lia. }
    destruct (Z.eq_dec (Zpos k) 971) as [Heq|Hne]; [|left; lia].
    right. split; [lia|]. rewrite Heq.
    apply Z.div_lt_upper_bound; [apply Z.pow_pos_nonneg; lia|].
    unfold max_double in Hmax. lia.
  - assert (Hdig : digits (Pos.iter xO m k) = 53).
    { apply digits_unique. rewrite iter_xO.
      assert (E1 : 2 ^ (53 - 1) = 2 ^ (digits m - 1) * 2 ^ Zpos k)
        by (rewrite <- Z.pow_add_r by lia; f_equal; lia).
      assert (E2 : 2 ^ 53 = 2 ^ digits m * 2 ^ Zpos k)
        by (rewrite <- Z.pow_add_r by lia; f_equal; lia).
      assert (0 < 2 ^ Zpos k) by (apply Z.pow_pos_nonneg; lia).
      rewrite E1, E2. split.
      - apply Z.mul_le_mono_nonneg_r; lia.
      - apply Z.mul_lt_mono_pos_r; lia. }
    apply binary_round_aux_finite; rewrite ?Hdig; lia.
Qed.

(** [int(x)] is never below minus the largest double either. *)
Lemma int_of_float_ge_min x n :
  Py.int_of_float x = Ok n -> - max_double <= n.
Proof.
  intros Hn.
  assert (Hopp : Py.int_of_float (- x) = Ok (- n)).
  { unfold Py.int_of_float in *. rewrite opp_spec.
    destruct (Prim2SF x) as [s|s| |s m e]; simpl; try discriminate Hn.
    - injection Hn as <-. reflexivity.
    - injection Hn as <-. destruct s; simpl; f_equal; lia. }
  apply int_of_float_le_max in Hopp. lia.
Qed.

(** Every integer in the range of the doubles converts to a double. *)
Lemma float_of_int_in_range z :
  - max_double <= z <= max_double -> exists f, Py.float_of_int z = Ok f.
Proof.
  intros Hz. unfold Py.float_of_int.
  destruct z as [|m|m].
  - eexists. reflexivity.
  - destruct (Z.eq_dec (Zpos m) max_double) as [Heq|Hne].
    + rewrite Heq. eexists. vm_compute. reflexivity.
    + simpl binary_normalize.
      destruct (binary_round_int false m ltac:(lia)) as (q & e & -> & _).
      eexists. reflexivity.
  - destruct (Z.eq_dec (Zpos m) max_double) as [Heq|Hne].
    + replace (Zneg m) with (- max_double) by lia.
      eexists. vm_compute. reflexivity.
    + simpl binary_normalize.
      destruct (binary_round_int true m ltac:(lia)) as (q & e & -> & _).
      eexists. reflexivity.
Qed.

(** [__init__] on a capture that opened and reports numbers. *)
Lemma init_run v prop_fps prop_frame_count prop_width prop_height total w h :
  Py.int_of_float prop_frame_count = Ok total ->
  Py.int_of_float prop_width = Ok w ->
  Py.int_of_float prop_height = Ok h ->
  exists total_f,
    Py.float_of_int total = Ok total_f
    /\ __init__ true v prop_fps prop_frame_count prop_width prop_height
       = if (prop_fps =? 0)%float
         then Raise ZeroDivisionError
         else Ok {| cap := v; fps := prop_fps; total_frames := total;
                    width := w; height := h;
                    duration := (total_f / prop_fps)%float |}.
Proof.
  intros Htotal Hw Hh.
  destruct (float_of_int_in_range total) as (total_f & Hf).
  { split; [apply (int_of_float_ge_min _ _ Htotal)
           |apply (int_of_float_le_max _ _ Htotal)]. }
  exists total_f. split; [exact Hf|].
  unfold __init__. simpl negb. cbv iota.
  rewrite Htotal. simpl. rewrite Hw. simpl. rewrite Hh. simpl.
  unfold Py.int_div_float. rewrite Hf. simpl. unfold Py.float_truediv.
  destruct (prop_fps =? 0)%float; reflexivity.
Qed.

(** X11: Opening a source: a capture that did not open raises [ValueError]. One
    that did, with a frame count, a width and a height that are numbers,
    raises [ZeroDivisionError] when it reports 0 frames per second, and
    otherwise always yields a converter, whose duration is the frame count
    divided by the frame rate. *)
Theorem init_outcome :
  forall v prop_fps prop_frame_count prop_width prop_height total w h,
    Py.int_of_float prop_frame_count = Ok total ->
    Py.int_of_float prop_width = Ok w ->
    Py.int_of_float prop_height = Ok h ->
    __init__ false v prop_fps prop_frame_count prop_width prop_height
    = Raise ValueError
    /\ exists total_f,
         Py.float_of_int total = Ok total_f
         /\ __init__ true v prop_fps prop_frame_count prop_width prop_height
            = if (prop_fps =? 0)%float
              then Raise ZeroDivisionError
              else Ok {| cap := v; fps := prop_fps; total_frames := total;
                         width := w; height := h;
                         duration := (total_f / prop_fps)%float |}.
Proof.
  intros v prop_fps prop_frame_count prop_width prop_height total w h
    Htotal Hw Hh.
  split; [reflexivity|]. apply init_run; assumption.
Qed.

(** A container that reports 3600 frames and 0 fps. *)
Lemma init_outcome_witness :
  __init__ true (uniform_video 1920 1080 3600) 0 3600 1920 1080
  = Raise ZeroDivisionError.
Proof.
  destruct (init_outcome (uniform_video 1920 1080 3600) 0%float 3600%float
              1920%float 1080%float 3600 1920 1080) as (_ & tf & _ & Hinit).
  - vm_compute. reflexivity.
  - vm_compute. reflexivity.
  - vm_compute. reflexivity.
  - exact Hinit.
Defined.

(** ** Exceptions *)

(** A double equal to 0.0 is a zero. *)
Lemma eqb_zero_inv (x : float) :
  (x =? 0)%float = true -> exists s, Prim2SF x = S754_zero s.
Proof.
  rewrite eqb_spec. change (Prim2SF 0) with (S754_zero false).
  unfold SFeqb. destruct (Prim2SF x) as [s|s| |s m e]; simpl.
  - intros _. exists s. reflexivity.
  - destruct s; discriminate.
  - discriminate.
  - destruct s; discriminate.
Qed.

(** A sampling that returns was given a frame rate other than 0, so
    line 109 can divide by it. *)
Lemma frame_duration_after_sampling start_frame effective_frames
    duration_arg fps_arg p :
  frame_sampling start_frame effective_frames duration_arg fps_arg = Ok p ->
  exists fd, Py.float_div_int 1 fps_arg = Ok fd.
Proof.
  intros Hp.
  destruct (frame_sampling_count_and_clamp _ _ _ _ _ Hp)
    as ((x & Hx & Hn) & _ & _).
  assert (Hnz : output_frames_count p <> 0).
  { intros Hzero. unfold frame_sampling in Hp.
    rewrite Hx in Hp. simpl in Hp. rewrite Hn, Hzero in Hp.
    discriminate Hp. }
  unfold Py.float_mul_int in Hx.
  apply rbind_Ok_inv in Hx. destruct Hx as (ff & Hff & Hx).
  injection Hx as <-.
  unfold Py.float_div_int. rewrite Hff. simpl. unfold Py.float_truediv.
  destruct (ff =? 0)%float eqn:Hzero; [|eexists; reflexivity].
  exfalso. apply Hnz.
  destruct (eqb_zero_inv ff Hzero) as (s & Hs).
  unfold Py.int_of_float in Hn. rewrite mul_spec, Hs in Hn.
  destruct (Prim2SF duration_arg) as [sd|sd| |sd md ed]; simpl in Hn;
    try discriminate Hn; injection Hn as <-; reflexivity.
Qed.

(** X6: Once the time window, the resize target and the sampling have been
    computed, [create_gif] can still raise in three ways only: [cv2.error]
    from [cv2.resize] in the loop, on a target whose width or height is not
    positive, at the first frame that could be read; the [IndexError] of
    the optimized path, when not one sampled frame could be read; and what
    the call of the writer raises. Line 109 cannot fail any more. *)
Theorem create_gif_exceptions_after_sampling :
  forall self pil_available save duration_arg width_arg fps_arg start_time
         stop_time optimize s t p w e w',
    time_parameters self start_time stop_time = Ok s ->
    resize_parameters self width_arg = Ok t ->
    frame_sampling (start_frame s) (effective_frames s) duration_arg fps_arg
    = Ok p ->
    create_gif self pil_available save duration_arg width_arg fps_arg
      start_time stop_time optimize w = (Raise e, w') ->
    (e = cv2_error
     /\ (scale_factor t =? 1)%float = false
     /\ (new_width t <= 0 \/ new_height t <= 0)
     /\ decoded (cap self) (frame_indices p) <> []
     /\ trace w'
        = trace w
          ++ seeks_and_reads (cap self)
               (through_first_readable (cap self) (frame_indices p)))
    \/ (e = IndexError
        /\ optimize = true /\ pil_available = true
        /\ decoded (cap self) (frame_indices p) = []
        /\ trace w'
           = (trace w ++ seeks_and_reads (cap self) (frame_indices p))
             ++ [Echo])
    \/ (exists wr,
          save wr = Raise e
          /\ trace w'
             = ((trace w ++ seeks_and_reads (cap self) (frame_indices p))
                ++ [Echo]) ++ [Write wr]).
Proof.
  intros self pil_available save duration_arg width_arg fps_arg start_time
    stop_time optimize s t p w e w' Hs Ht Hp.
  destruct (frame_duration_after_sampling _ _ _ _ _ Hp) as (fd & Hfd).
  destruct (create_gif_after_sampling_cases self pil_available save
              duration_arg width_arg fps_arg start_time stop_time optimize
              s t p w Hs Ht Hp)
    as [(Hrefused & Hdec & Hrun) | (fr & Hout & Hrun)].
  - rewrite Hrun. intros H. injection H as <- <-. left.
    apply target_refused_iff in Hrefused. destruct Hrefused as [Hsc Hdims].
    repeat split; assumption.
  - rewrite Hfd in Hrun.
    destruct Hrun as [(Hopt & Hnil & Hrun) | (wr & Hrun & _ & _)].
    + rewrite Hrun. intros H. injection H as <- <-. right. left.
      apply andb_true_iff in Hopt. destruct Hopt as [-> ->].
      split; [reflexivity|]. split; [reflexivity|]. split; [reflexivity|].
      split; [|reflexivity].
      subst fr. apply comprehension_length in Hout.
      destruct (decoded (cap self) (frame_indices p));
        [reflexivity | discriminate Hout].
    + rewrite Hrun. destruct (save wr) as [[]|e'] eqn:Hsave;
        [discriminate|].
      intros H. injection H as <- <-. right. right.
      exists wr. split; [exact Hsave | reflexivity].
Qed.

(** A maximum width of 1 on the 1920x1080 source: the target is 1 x 0, and
    the conversion stops with [cv2.error] at the first frame it reads. *)
Lemma create_gif_exceptions_after_sampling_witness :
  exists w',
    create_gif hd_source true saves 0.25 (Some 1) 10 30 (Some 90%float) true
      initial_world = (Raise cv2_error, w')
    /\ trace w' = [CapSet 900; CapRead true].
Proof.
  eassert (Hrun : create_gif hd_source true saves 0.25 (Some 1) 10 30
                    (Some 90%float) true initial_world
                  = (Raise cv2_error, _))
    by (vm_compute; reflexivity).
  eexists. split; [exact Hrun|].
  destruct (create_gif_exceptions_after_sampling hd_source true saves
              0.25%float (Some 1) 10 30%float (Some 90%float) true
              {| stop_time' := 90; effective_duration := 60;
                 start_frame := 900; end_frame := 2700;
                 effective_frames := 1800 |}
              {| scale_factor := (1 / 1920)%float; new_width := 1;
                 new_height := 0 |}
              {| output_frames_count := 2; frame_interval := 900;
                 frame_indices := [900; 1800] |}
              _ _ _ ltac:(vm_compute; reflexivity)
              ltac:(vm_compute; reflexivity)
              ltac:(vm_compute; reflexivity) Hrun)
    as [(_ & _ & _ & _ & Htrace) | [(He & _) | (wr & Hsave & _)]].
  - exact Htrace.
  - discriminate He.
  - discriminate Hsave.
Defined.

(** X8: A start time that is not a number passes the comparison of line 62,
    which is false on a NaN, and is stopped by [int()] on line 66:
    [ValueError], before anything is done to the capture. *)
Theorem nan_start_time_raises_ValueError :
  forall self pil_available save duration_arg width_arg fps_arg start_time
         stop_time optimize w,
    Prim2SF start_time = S754_nan ->
    (clamp_stop self stop_time <=? start_time)%float = false
    /\ time_parameters self start_time stop_time = Raise ValueError
    /\ create_gif self pil_available save duration_arg width_arg fps_arg
         start_time stop_time optimize w
       = (Raise ValueError, w).
Proof.
  intros self pil_available save duration_arg width_arg fps_arg start_time
    stop_time optimize w Hnan.
  assert (Hleb : (clamp_stop self stop_time <=? start_time)%float = false).
  { rewrite leb_spec, Hnan. unfold SFleb.
    destruct (Prim2SF (clamp_stop self stop_time)); reflexivity. }
  assert (Hraise : time_parameters self start_time stop_time
                   = Raise ValueError).
  { unfold time_parameters. rewrite Hleb.
    unfold Py.int_of_float at 1. rewrite mul_spec, Hnan. reflexivity. }
  split; [exact Hleb|]. split; [exact Hraise|].
  unfold create_gif. apply bind_lift_Raise. exact Hraise.
Qed.

Lemma nan_start_time_raises_ValueError_witness :
  time_parameters hd_source nan (Some 90%float) = Raise ValueError.
Proof.
  apply (nan_start_time_raises_ValueError hd_source true saves 5%float None
           10 nan
           (Some 90%float) true initial_world).
  vm_compute. reflexivity.
Defined.

(** ** Exact operations on doubles *)

(** A mantissa of 53 digits with an exponent in range is not changed by
    rounding. *)
Lemma binary_round_aux_exact s m e :
  digits m = 53 -> -1074 <= e <= 971 ->
  binary_round_aux prec emax s (Zpos m) e loc_Exact = S754_finite s m e.
Proof.
  intros Hd He.
  assert (Hshr : shr_fexp prec emax (Zpos m) e loc_Exact
                 = ({| shr_m := Zpos m; shr_r := false; shr_s := false |}, e)).
  { unfold shr_fexp. simpl Zdigits2. fold (digits m). rewrite Hd.
    rewrite fexp_normal by lia.
    replace (53 + e - 53 - e) with 0 by lia. reflexivity. }
  unfold binary_round_aux. rewrite Hshr. simpl shr_m.
  simpl loc_of_shr_record. simpl round_nearest_even. rewrite Hshr.
  simpl shr_m.
  assert (Hleb : (e <=? emax - prec) = true)
    by (apply Z.leb_le; unfold emax, prec; lia).
  rewrite Hleb. reflexivity.
Qed.

(** An even mantissa of 54 digits loses its last digit, exactly. *)
Lemma binary_round_aux_even s m e :
  digits m = 53 -> -1074 <= e -> e + 1 <= 971 ->
  binary_round_aux prec emax s (Zpos m~0) e loc_Exact
  = S754_finite s m (e + 1).
Proof.
  intros Hd He He'.
  assert (Hd' : digits m~0 = 54).
  { unfold digits in *. simpl digits2_pos. rewrite Pos2Z.inj_succ. lia. }
  assert (Hshr : shr_fexp prec emax (Zpos m~0) e loc_Exact
                 = ({| shr_m := Zpos m; shr_r := false; shr_s := false |},
                    e + 1)).
  { unfold shr_fexp. simpl Zdigits2.
    change (Zpos (Pos.succ (digits2_pos m))) with (digits m~0).
    rewrite Hd'. rewrite fexp_normal by lia.
    replace (54 + e - 53 - e) with 1 by lia. reflexivity. }
  assert (Hshr' : shr_fexp prec emax (Zpos m) (e + 1) loc_Exact
                  = ({| shr_m := Zpos m; shr_r := false; shr_s := false |},
                     e + 1)).
  { unfold shr_fexp. simpl Zdigits2. fold (digits m). rewrite Hd.
    rewrite fexp_normal by lia.
    replace (53 + (e + 1) - 53 - (e + 1)) with 0 by lia. reflexivity. }
  unfold binary_round_aux. rewrite Hshr. simpl shr_m.
  simpl loc_of_shr_record. simpl round_nearest_even. rewrite Hshr'.
  simpl shr_m.
  assert (Hleb : (e + 1 <=? emax - prec) = true)
    by (apply Z.leb_le; unfold emax, prec; lia).
  rewrite Hleb. reflexivity.
Qed.

Lemma Prim2SF_1024 :
  Prim2SF 1024 = S754_finite false 4503599627370496 (-42).
Proof. vm_compute. reflexivity. Qed.

(** Dividing a normal double by 1024.0 lowers its exponent by 10. *)
Lemma div_1024_exact (x : float) s m e :
  Prim2SF x = S754_finite s m e ->
  digits m = 53 -> -1063 <= e <= 981 ->
  Prim2SF (x / 1024) = S754_finite s m (e - 10).
Proof.
  intros Hx Hd He. rewrite div_spec, Hx.
  rewrite Prim2SF_1024.
  unfold SF64div, SFdiv.
  assert (Hcore : SFdiv_core_binary prec emax (Zpos m) e
                    (Zpos 4503599627370496) (-42)
                  = (Zpos m~0, e - 11, loc_Exact)).
  { unfold SFdiv_core_binary. simpl Zdigits2. fold (digits m). rewrite Hd.
    change (Zpos (digits2_pos 4503599627370496)) with 53.
    replace (53 + e - (53 + -42)) with (e + 42) by lia.
    rewrite fexp_normal by lia.
    replace (Z.min (e + 42 - 53) (e - -42)) with (e - 11) by lia.
    replace (e - -42 - (e - 11)) with 53 by lia.
    assert (Hdiv : Z.div_eucl (Z.shiftl (Zpos m) 53) (Zpos 4503599627370496)
                   = (Zpos m~0, 0)).
    { pose proof (Z.div_eucl_eq (Z.shiftl (Zpos m) 53) 4503599627370496
                    ltac:(lia)) as Heq.
      pose proof (Z.mod_pos_bound (Z.shiftl (Zpos m) 53) 4503599627370496
                    ltac:(lia)) as Hbound.
      unfold Z.modulo in Hbound.
      destruct (Z.div_eucl (Z.shiftl (Zpos m) 53) 4503599627370496)
        as [q r].
      rewrite Z.shiftl_mul_pow2 in Heq by lia.
      change (2 ^ 53) with (2 * 4503599627370496) in Heq.
      assert (q = Zpos m~0 /\ r = 0) as [-> ->] by (rewrite Pos2Z.inj_xO; lia).
      reflexivity. }
    rewrite Hdiv. reflexivity. }
  rewrite Hcore. simpl xorb.
  replace (xorb s false) with s by (destruct s; reflexivity).
  rewrite binary_round_aux_even by lia.
  f_equal. lia.
Qed.

(** A normal double is below 1024.0 when its exponent is below -42. *)
Lemma ltb_1024 (x : float) m e :
  Prim2SF x = S754_finite false m e -> digits m = 53 ->
  (x <? 1024)%float = (e <? -42).
Proof.
  intros Hx Hd. rewrite ltb_spec, Hx, Prim2SF_1024.
  unfold SFltb, SFcompare.
  destruct (e ?= -42) eqn:Hcmp.
  - apply Z.compare_eq_iff in Hcmp. rewrite Hcmp, Z.ltb_irrefl.
    rewrite Pos.compare_cont_spec.
    destruct (m ?= 4503599627370496)%positive eqn:Hm; try reflexivity.
    exfalso. rewrite Pos.compare_lt_iff in Hm.
    pose proof (digits_bounds m) as [Hlo _]. rewrite Hd in Hlo.
    assert (H52 : 2 ^ (53 - 1) = 4503599627370496) by reflexivity.
    rewrite H52 in Hlo. apply Pos2Z.pos_lt_pos in Hm. clear - Hm Hlo.
    lia.
  - symmetry. apply Z.ltb_lt. exact Hcmp.
  - symmetry. apply Z.ltb_ge. apply Z.compare_gt_iff in Hcmp. lia.
Qed.

(** A mantissa of 53 digits with an exponent in range is a double. *)
Lemma valid_binary_53 s q e :
  digits q = 53 -> -1074 <= e <= 971 ->
  valid_binary (S754_finite s q e) = true.
Proof.
  intros Hd He. unfold valid_binary, bounded, canonical_mantissa.
  fold (digits q). rewrite Hd, fexp_normal by lia.
  apply andb_true_intro. split.
  - apply Z.eqb_eq. lia.
  - apply Z.leb_le. unfold emax, prec. lia.
Qed.

(** An integer of at most 53 digits converts exactly: the double has the
    digits of the integer, shifted to the left end of the mantissa. *)
Lemma float_of_int_exact m :
  digits m <= 53 ->
  exists x q,
    Py.float_of_int (Zpos m) = Ok x
    /\ Prim2SF x = S754_finite false q (digits m - 53)
    /\ digits q = 53
    /\ Zpos q = Zpos m * 2 ^ (53 - digits m).
Proof.
  intros Hd.
  assert (Hdpos : 0 < digits m) by (unfold digits; lia).
  assert (Hround : exists q,
             binary_normalize prec emax (Zpos m) 0 false
             = S754_finite false q (digits m - 53)
             /\ digits q = 53 /\ Zpos q = Zpos m * 2 ^ (53 - digits m)).
  { unfold binary_normalize, binary_round. fold (digits m).
    rewrite Z.add_0_r, fexp_normal by lia.
    unfold shl_align. rewrite Z.sub_0_r.
    destruct (digits m - 53) as [|k|k] eqn:Hk; try lia.
    - exists m. assert (Hd53 : digits m = 53) by lia.
      rewrite binary_round_aux_exact by lia.
      rewrite Hd53. simpl. split; [reflexivity|]. split; [reflexivity|lia].
    - assert (Hval : Zpos (Pos.iter xO m k) = Zpos m * 2 ^ (53 - digits m)).
      { rewrite iter_xO. f_equal. f_equal. lia. }
      assert (Hdig : digits (Pos.iter xO m k) = 53).
      { apply digits_unique. rewrite Hval.
        pose proof (digits_bounds m) as [Hlo Hhi].
        assert (E1 : 2 ^ (53 - 1)
                     = 2 ^ (digits m - 1) * 2 ^ (53 - digits m))
          by (rewrite <- Z.pow_add_r by lia; f_equal; lia).
        assert (E2 : 2 ^ 53 = 2 ^ digits m * 2 ^ (53 - digits m))
          by (rewrite <- Z.pow_add_r by lia; f_equal; lia).
        assert (0 < 2 ^ (53 - digits m)) by (apply Z.pow_pos_nonneg; lia).
        rewrite E1, E2. split.
        - apply Z.mul_le_mono_nonneg_r; lia.
        - apply Z.mul_lt_mono_pos_r; lia. }
      exists (Pos.iter xO m k).
      rewrite binary_round_aux_exact by lia.
      split; [reflexivity|]. split; [exact Hdig | exact Hval]. }
  destruct Hround as (q & Hn & Hdq & Hq).
  unfold Py.float_of_int. rewrite Hn.
  exists (SF2Prim (S754_finite false q (digits m - 53))), q.
  split; [reflexivity|]. split; [|split; assumption].
  apply Prim2SF_SF2Prim. apply valid_binary_53; [exact Hdq | lia].
Qed.

(** A positive integer is below [2^D] when it has at most [D] digits. *)
Lemma ltb_pow2_digits m D :
  0 <= D -> (Zpos m <? 2 ^ D) = (digits m <=? D).
Proof.
  intros HD. pose proof (digits_bounds m) as [Hlo Hhi].
  assert (Hdpos : 0 < digits m) by (unfold digits; lia).
  destruct (Z.leb_spec (digits m) D) as [Hle|Hgt].
  - apply Z.ltb_lt.
    assert (2 ^ digits m <= 2 ^ D) by (apply Z.pow_le_mono_r; lia). lia.
  - apply Z.ltb_ge.
    assert (2 ^ D <= 2 ^ (digits m - 1)) by (apply Z.pow_le_mono_r; lia).
    lia.
Qed.

(** ** format_size (lines 145-151) *)

Module TextFacts.

Import String.

(** Scaling both sides of a quotient does not change its rounding. *)
Lemma round_half_even_scale a b c :
  0 < b -> 0 < c ->
  Text.round_half_even (a * c) (b * c) = Text.round_half_even a b.
Proof.
  intros Hb Hc. unfold Text.round_half_even.
  rewrite Z.div_mul_cancel_r by lia.
  rewrite Z.mul_mod_distr_r by lia.
  assert (Hcmp : (2 * (a mod b * c) ?= b * c) = (2 * (a mod b) ?= b)).
  { destruct (Z.compare_spec (2 * (a mod b)) b) as [H|H|H].
    - apply Z.compare_eq_iff.
      replace (2 * (a mod b * c)) with (2 * (a mod b) * c) by ring.
      rewrite H. reflexivity.
    - apply Z.compare_lt_iff.
      replace (2 * (a mod b * c)) with (2 * (a mod b) * c) by ring.
      apply Z.mul_lt_mono_pos_r; assumption.
    - apply Z.compare_gt_iff.
      replace (2 * (a mod b * c)) with (2 * (a mod b) * c) by ring.
      apply Z.mul_lt_mono_pos_r; assumption. }
  rewrite Hcmp. reflexivity.
Qed.

(** Rounding stays between the floor and the floor plus one. *)
Lemma round_half_even_bounds p q :
  p / q <= Text.round_half_even p q <= p / q + 1.
Proof.
  unfold Text.round_half_even.
  destruct (2 * (p mod q) ?= q); [destruct (Z.even (p / q))| |]; lia.
Qed.

(** Formatting a positive double that has a fractional part. *)
Lemma format_1f_fraction x q e :
  Prim2SF x = S754_finite false q e -> e < 0 ->
  Text.format_1f x
  = Text.one_decimal (Text.round_half_even (10 * Zpos q) (2 ^ (- e))).
Proof.
  intros Hx He. unfold Text.format_1f. rewrite Hx.
  destruct e as [|p|p]; try lia. reflexivity.
Qed.

(** Formatting the double that holds [n / 2^j] exactly. *)
Lemma format_1f_quotient x q m j :
  Prim2SF x = S754_finite false q (digits m - 53 - j) ->
  Zpos q = Zpos m * 2 ^ (53 - digits m) ->
  digits m <= 53 -> 0 <= j -> digits m - 53 - j < 0 ->
  Text.format_1f x
  = Text.one_decimal (Text.round_half_even (10 * Zpos m) (2 ^ j)).
Proof.
  intros Hx Hq Hd Hj Hneg.
  rewrite (format_1f_fraction x q _ Hx Hneg), Hq.
  replace (- (digits m - 53 - j)) with (j + (53 - digits m)) by lia.
  rewrite Z.pow_add_r by lia.
  rewrite Z.mul_assoc.
  rewrite round_half_even_scale by (apply Z.pow_pos_nonneg; lia).
  reflexivity.
Qed.

(** [format_size] on every size below 2^53 bytes. *)
Lemma format_size_run n :
  0 <= n < 2 ^ 53 ->
  Text.format_size n
  = Ok (Text.one_decimal
          (Text.round_half_even (10 * n) (1024 ^ Text.size_exponent n))
        ++ " " ++ Text.size_unit n)%string.
Proof.
  intros [H0 Hmax]. destruct n as [|m|m]; [reflexivity| |lia].
  assert (Hd : digits m <= 53).
  { rewrite <- Z.leb_le, <- ltb_pow2_digits by lia. apply Z.ltb_lt.
    exact Hmax. }
  assert (Hdpos : 0 < digits m) by (unfold digits; lia).
  destruct (float_of_int_exact m Hd) as (x & q & Hx & Hsf & Hdq & Hq).
  pose proof (div_1024_exact x false q _ Hsf Hdq ltac:(lia)) as Hsf1.
  pose proof (div_1024_exact _ false q _ Hsf1 Hdq ltac:(lia)) as Hsf2.
  pose proof (div_1024_exact _ false q _ Hsf2 Hdq ltac:(lia)) as Hsf3.
  pose proof (div_1024_exact _ false q _ Hsf3 Hdq ltac:(lia)) as Hsf4.
  replace (digits m - 53 - 10 - 10) with (digits m - 53 - 20) in * by lia.
  replace (digits m - 53 - 20 - 10) with (digits m - 53 - 30) in * by lia.
  replace (digits m - 53 - 30 - 10) with (digits m - 53 - 40) in * by lia.
  unfold Text.size_exponent, Text.size_unit.
  change (1024 ^ 2) with (2 ^ 20). change (1024 ^ 3) with (2 ^ 30).
  change (1024 ^ 4) with (2 ^ 40). change 1024 with (2 ^ 10) at 2 3.
  rewrite !ltb_pow2_digits by lia.
  unfold Text.format_size, Text.format_size_from, Text.lt_1024,
    Text.div_1024, Text.show, Py.int_div_float.
  change (Zpos m <? 1024) with (Zpos m <? 2 ^ 10).
  rewrite ltb_pow2_digits by lia.
  rewrite Hx. simpl rbind.
  rewrite (ltb_1024 _ _ _ Hsf1 Hdq), (ltb_1024 _ _ _ Hsf2 Hdq),
    (ltb_1024 _ _ _ Hsf3 Hdq).
  destruct (Z.leb_spec (digits m) 10) as [H10|H10].
  { replace (digits m - 53) with (digits m - 53 - 0) in Hsf by lia.
    rewrite (format_1f_quotient _ q m 0 Hsf Hq) by lia. reflexivity. }
  destruct (Z.leb_spec (digits m) 20) as [H20|H20].
  { replace (digits m - 53 - 10 <? -42) with true
      by (symmetry; apply Z.ltb_lt; lia).
    rewrite (format_1f_quotient _ q m 10 Hsf1 Hq) by lia. reflexivity. }
  replace (digits m - 53 - 10 <? -42) with false
    by (symmetry; apply Z.ltb_ge; lia).
  destruct (Z.leb_spec (digits m) 30) as [H30|H30].
  { replace (digits m - 53 - 20 <? -42) with true
      by (symmetry; apply Z.ltb_lt; lia).
    rewrite (format_1f_quotient _ q m 20 Hsf2 Hq) by lia. reflexivity. }
  replace (digits m - 53 - 20 <? -42) with false
    by (symmetry; apply Z.ltb_ge; lia).
  destruct (Z.leb_spec (digits m) 40) as [H40|H40].
  { replace (digits m - 53 - 30 <? -42) with true
      by (symmetry; apply Z.ltb_lt; lia).
    rewrite (format_1f_quotient _ q m 30 Hsf3 Hq) by lia. reflexivity. }
  replace (digits m - 53 - 30 <? -42) with false
    by (symmetry; apply Z.ltb_ge; lia).
  rewrite (format_1f_quotient _ q m 40 Hsf4 Hq) by lia. reflexivity.
Qed.

(** X12: [format_size] on every size below 2^53 bytes (8 PiB) is the size
    divided by the power of 1024 of its range, rounded to one decimal
    (ties to even), followed by the unit of that range: B below 1024, KB
    below 1024^2, MB below 1024^3, GB below 1024^4, TB from there on. It
    does not raise. *)
Theorem format_size_by_powers_of_1024 :
  forall n,
    0 <= n < 2 ^ 53 ->
    Text.format_size n
    = Ok (Text.one_decimal
            (Text.round_half_even (10 * n) (1024 ^ Text.size_exponent n))
          ++ " " ++ Text.size_unit n)%string.
Proof. intros n Hn. apply format_size_run. exact Hn. Qed.

Lemma format_size_by_powers_of_1024_witness :
  Text.format_size 5000000 = Ok "4.8 MB"%string.
Proof.
  rewrite (format_size_by_powers_of_1024 5000000) by lia.
  vm_compute. reflexivity.
Defined.

(** X13: A size below 1024 is printed as the number of bytes with ".0". *)
Theorem format_size_bytes :
  forall n,
    0 <= n < 1024 ->
    Text.format_size n = Ok (Text.str_int n ++ ".0 B")%string.
Proof.
  intros n Hn. rewrite format_size_run by lia.
  unfold Text.size_exponent, Text.size_unit.
  replace (n <? 1024) with true by (symmetry; apply Z.ltb_lt; lia).
  unfold Text.round_half_even. change (1024 ^ 0) with 1.
  rewrite Z.mod_1_r, Z.div_1_r. simpl Z.compare. cbv iota.
  unfold Text.one_decimal.
  replace (10 * n / 10) with n
    by (rewrite Z.mul_comm, Z.div_mul by lia; reflexivity).
  replace ((10 * n) mod 10) with 0
    by (rewrite Z.mul_comm, Z.mod_mul by lia; reflexivity).
  f_equal. induction (Text.str_int n) as [|c digits IH]; [reflexivity|].
  simpl. f_equal. exact IH.
Qed.

Lemma format_size_bytes_witness :
  Text.format_size 1023 = Ok "1023.0 B"%string.
Proof.
  rewrite (format_size_bytes 1023) by lia. reflexivity.
Defined.

(** X14: From 1024 bytes up to 1 TiB the number printed lies between 1.0 and
    1024.0: rounding can show 1024.0 with the smaller unit, just below a
    power of 1024. *)
Theorem format_size_number_range :
  forall n,
    1024 <= n < 1024 ^ 4 ->
    exists tenths,
      Text.format_size n
      = Ok (Text.one_decimal tenths ++ " " ++ Text.size_unit n)%string
      /\ 10 <= tenths <= 10240.
Proof.
  intros n Hn.
  assert (H53 : 1024 ^ 4 < 2 ^ 53) by reflexivity.
  rewrite format_size_run by lia.
  eexists. split; [reflexivity|].
  pose proof (round_half_even_bounds (10 * n)
                (1024 ^ Text.size_exponent n)) as Hb.
  unfold Text.size_exponent in *.
  replace (n <? 1024) with false in * by (symmetry; apply Z.ltb_ge; lia).
  assert (Hdiv : forall k, 0 < k -> k <= n < 1024 * k ->
                           10 <= 10 * n / k <= 10239).
  { intros k Hk [Hlo Hhi]. split.
    - apply Z.div_le_lower_bound; lia.
    - assert (10 * n / k < 10240)
        by (apply Z.div_lt_upper_bound; lia).
      lia. }
  destruct (Z.ltb_spec n (1024 ^ 2)) as [H2|H2].
  { specialize (Hdiv (1024 ^ 1) ltac:(reflexivity)).
    change (1024 * 1024 ^ 1) with (1024 ^ 2) in Hdiv.
    change (1024 ^ 1) with 1024 in Hdiv at 1. specialize (Hdiv ltac:(lia)).
    lia. }
  destruct (Z.ltb_spec n (1024 ^ 3)) as [H3|H3].
  { specialize (Hdiv (1024 ^ 2) ltac:(reflexivity)).
    change (1024 * 1024 ^ 2) with (1024 ^ 3) in Hdiv.
    specialize (Hdiv ltac:(lia)). lia. }
  replace (n <? 1024 ^ 4) with true in * by (symmetry; apply Z.ltb_lt; lia).
  specialize (Hdiv (1024 ^ 3) ltac:(reflexivity)).
  change (1024 * 1024 ^ 3) with (1024 ^ 4) in Hdiv.
  specialize (Hdiv ltac:(lia)). lia.
Qed.

(** One byte less than 1 MiB is printed as 1024.0 KB. *)
Lemma format_size_number_range_witness :
  exists tenths,
    Text.format_size 1048575
    = Ok (Text.one_decimal tenths ++ " KB")%string
    /\ 10 <= tenths <= 10240.
Proof.
  destruct (format_size_number_range 1048575) as (t & Ht & Hr).
  - split; [lia | reflexivity].
  - exists t. split; [exact Ht | exact Hr].
Defined.

End TextFacts.

(** ** The command (lines 154-264) *)

Module CliFacts.

Import String.
Import Cli.

(** The command in the three ways it can end after the converter is built
    and the plan is printed. *)
Lemma command_run env a c speed :
  converter_of env = Ok c ->
  info a = false ->
  Py.float_truediv
    (effective_stop_of (arg_stop_time a) (get_video_info c)
     - arg_start_time a)%float (arg_duration a) = Ok speed ->
  exists plan,
    plan = ConversionPlan (video_file a) (arg_start_time a)
             (effective_stop_of (arg_stop_time a) (get_video_info c))
             (effective_stop_of (arg_stop_time a) (get_video_info c)
              - arg_start_time a)%float
             (output_file_of env a) (arg_duration a) speed
             (if truthy (arg_width a) then arg_width a else None)
             (arg_fps a)
    /\ command env a
       = match create_gif c (pil_installed env) (write_gif env)
                 (arg_duration a) (arg_width a) (arg_fps a)
                 (arg_start_time a) (arg_stop_time a)
                 (negb (no_optimize a)) initial_world
         with
         | (Raise e, w) => failed [plan] w e
         | (Ok _, w) =>
             match getsize env (output_file_of env a) with
             | None => failed [plan] w OSError
             | Some file_size =>
                 match Text.format_size file_size with
                 | Raise e =>
                     failed ([plan] ++ [Success (output_file_of env a)]) w e
                 | Ok size =>
                     {| status := 0;
                        console :=
                          [plan]
                          ++ [Success (output_file_of env a); FileSize size]
                          ++ tips_for a
                               (effective_stop_of (arg_stop_time a)
                                  (get_video_info c)
                                - arg_start_time a)%float file_size;
                        capture := w |}
                 end
             end
         end.
Proof.
  intros Hc Hinfo Hspeed. eexists. split; [reflexivity|].
  unfold command. rewrite Hc, Hinfo. cbv zeta. rewrite Hspeed. reflexivity.
Qed.

(** X15: With [--info] the command only shows the metadata: the capture is not
    moved or read and nothing is written. It exits with 0 when the
    converter can be built and with 1 when it cannot; for a capture that
    opened and reports numbers that is exactly when it reports 0 frames per
    second. *)
Theorem info_only_shows_metadata :
  forall env a,
    info a = true ->
    capture (command env a) = initial_world
    /\ (forall c, converter_of env = Ok c ->
          status (command env a) = 0
          /\ console (command env a)
             = [VideoInformation (video_file a) (get_video_info c)])
    /\ (forall e, converter_of env = Raise e ->
          status (command env a) = 1
          /\ console (command env a) = [Error e])
    /\ (forall total w h,
          capture_opened env = true ->
          Py.int_of_float (capture_frame_count env) = Ok total ->
          Py.int_of_float (capture_width env) = Ok w ->
          Py.int_of_float (capture_height env) = Ok h ->
          status (command env a)
          = if (capture_fps env =? 0)%float then 1 else 0).
Proof.
  intros env a Hinfo. unfold command. rewrite Hinfo.
  split; [destruct (converter_of env); reflexivity|].
  split; [intros c ->; split; reflexivity|].
  split; [intros e ->; split; reflexivity|].
  intros total w h Hopen Htotal Hw Hh. unfold converter_of. rewrite Hopen.
  destruct (init_run (capture_video env) (capture_fps env) _ _ _ _ _ _
              Htotal Hw Hh) as (tf & _ & ->).
  destruct (capture_fps env =? 0)%float; reflexivity.
Qed.

Lemma info_only_shows_metadata_witness :
  capture (command sample_environment
             {| video_file := video_file sample_arguments;
                output_file := None; arg_duration := 5; arg_width := None;
                arg_fps := 10; arg_start_time := 0; arg_stop_time := None;
                no_optimize := false; info := true |})
  = initial_world.
Proof.
  apply (info_only_shows_metadata sample_environment
           {| video_file := video_file sample_arguments;
              output_file := None; arg_duration := 5; arg_width := None;
              arg_fps := 10; arg_start_time := 0; arg_stop_time := None;
              no_optimize := false; info := true |}).
  reflexivity.
Defined.

(** The body of the command ends with 0 or 1, and with 1 exactly when the
    last thing it printed is an error. *)
Lemma command_exit env a :
  (status (command env a) = 0 \/ status (command env a) = 1)
  /\ (status (command env a) = 1 <->
      exists printed e, console (command env a) = printed ++ [Error e])
  /\ (status (command env a) = 0 ->
      forall e, ~ In (Error e) (console (command env a))).
Proof.
  assert (Hfailed : forall printed w e,
             let o := failed printed w e in
             (status o = 0 \/ status o = 1)
             /\ (status o = 1 <->
                 exists printed' e', console o = printed' ++ [Error e'])
             /\ (status o = 0 -> forall e', ~ In (Error e') (console o))).
  { intros printed w e. simpl. split; [right; reflexivity|]. split.
    - split; [intros _; exists printed, e; reflexivity | reflexivity].
    - discriminate. }
  assert (Hlast : forall (l printed : list line) e,
             l = printed ++ [Error e] -> last l (Tips []) = Error e).
  { intros l printed e ->. apply last_last. }
  unfold command.
  destruct (converter_of env) as [c|e0]; [|apply Hfailed].
  destruct (info a).
  { simpl. split; [left; reflexivity|]. split.
    - split; [discriminate|]. intros (printed & e & Heq).
      apply Hlast in Heq. discriminate Heq.
    - intros _ e [H|[]]. discriminate H. }
  cbv zeta.
  destruct (Py.float_truediv _ (arg_duration a)) as [speed|e1];
    [|apply Hfailed].
  destruct (create_gif c _ _ _ _ _ _ _ _ initial_world) as [[l|e2] w];
    [|apply Hfailed].
  destruct (getsize env (output_file_of env a)) as [file_size|];
    [|apply Hfailed].
  destruct (Text.format_size file_size) as [size|e3]; [|apply Hfailed].
  simpl status. simpl console.
  split; [left; reflexivity|]. split.
  - split; [discriminate|]. intros (printed & e & Heq).
    apply Hlast in Heq. unfold tips_for in Heq.
    destruct (2 * 1024 * 1024 <? file_size); discriminate Heq.
  - intros _ e Hin. unfold tips_for in Hin.
    destruct (2 * 1024 * 1024 <? file_size); simpl in Hin;
      repeat (destruct Hin as [Hin|Hin]; [discriminate Hin|]); exact Hin.
Qed.

(** What [validate_video_file] rejects: a value that is not empty and
    names no existing file, or a file whose suffix is not one of the
    five. *)
Lemma validate_video_file_rejects env value :
  (exists why, validate_video_file env value = inl why)
  <-> value <> EmptyString
      /\ (path_exists env value = false
          \/ existsb (String.eqb (path_suffix_lower env value))
               [".mp4"; ".avi"; ".mov"; ".mkv"; ".webm"]%string = false).
Proof.
  unfold validate_video_file. destruct value as [|ch rest].
  - split; [intros (why & H); discriminate H | intros [H _]; congruence].
  - generalize (existsb (String.eqb (path_suffix_lower env (String ch rest)))
                  [".mp4"; ".avi"; ".mov"; ".mkv"; ".webm"]%string).
    generalize (path_exists env (String ch rest)).
    intros found known. destruct found, known; cbn [negb].
    + split; [intros (why & H); discriminate H|].
      intros [_ [H|H]]; discriminate H.
    + split; [|intros _; eexists; reflexivity].
      intros _. split; [discriminate | right; reflexivity].
    + split; [|intros _; eexists; reflexivity].
      intros _. split; [discriminate | left; reflexivity].
    + split; [|intros _; eexists; reflexivity].
      intros _. split; [discriminate | left; reflexivity].
Qed.

(** X16: On the values click has parsed, the command exits with 0, 1 or 2.
    It exits with 2 exactly when [validate_video_file] rejects the input,
    that is, when the value is not empty and names no existing file or a
    file whose suffix is not one of the five; the body is then not entered:
    only the usage error is printed and the capture is not touched. It
    exits with 1 exactly when the last thing printed is the error of
    line 263, and a run that exits with 0 printed no error. An empty value
    passes the callback and reaches the body as it is. *)
Theorem main_status :
  forall env a,
    (status (main env a) = 0 \/ status (main env a) = 1
     \/ status (main env a) = 2)
    /\ (status (main env a) = 2 <->
        video_file a <> EmptyString
        /\ (path_exists env (video_file a) = false
            \/ existsb (String.eqb (path_suffix_lower env (video_file a)))
                 [".mp4"; ".avi"; ".mov"; ".mkv"; ".webm"]%string = false))
    /\ (status (main env a) = 2 ->
        exists why,
          console (main env a) = [UsageError why]
          /\ capture (main env a) = initial_world)
    /\ (status (main env a) = 1 <->
        exists printed e, console (main env a) = printed ++ [Error e])
    /\ (status (main env a) = 0 ->
        forall e, ~ In (Error e) (console (main env a)))
    /\ (video_file a = EmptyString -> main env a = command env a).
Proof.
  intros env a.
  pose proof (validate_video_file_rejects env (video_file a)) as Hrejects.
  assert (Hempty : video_file a = EmptyString -> main env a = command env a).
  { intros Hvalue. unfold main. rewrite Hvalue. simpl.
    destruct a as [vf ? ? ? ? ? ? ? ?]. simpl in Hvalue. subst vf.
    reflexivity. }
  unfold main in *.
  destruct (validate_video_file env (video_file a)) as [why|value].
  - simpl. split; [right; right; reflexivity|].
    split.
    { split; [intros _; apply Hrejects; eexists; reflexivity|].
      reflexivity. }
    split; [intros _; exists why; split; reflexivity|].
    split.
    { split; [discriminate|]. intros (printed & e & Heq).
      destruct printed as [|x [|y printed]]; discriminate Heq. }
    split; [|exact Hempty].
    discriminate.
  - match goal with
    | |- context [command env ?a'] =>
        destruct (command_exit env a') as (Hstatus & Hone & Hzero);
        set (o := command env a') in *
    end.
    split; [destruct Hstatus as [H|H]; [left | right; left]; exact H|].
    split.
    { split.
      - intros Htwo. destruct Hstatus as [H|H]; rewrite H in Htwo;
          discriminate Htwo.
      - intros Hbad. apply Hrejects in Hbad. destruct Hbad as (why & Hbad).
        discriminate Hbad. }
    split.
    { intros Htwo. destruct Hstatus as [H|H]; rewrite H in Htwo;
        discriminate Htwo. }
    split; [exact Hone|]. split; [exact Hzero | exact Hempty].
Qed.

(** A file that does not exist: status 2, and nothing but the usage
    error. *)
Lemma main_status_witness :
  exists why,
    console (main missing_file_environment sample_arguments)
    = [UsageError why]
    /\ capture (main missing_file_environment sample_arguments)
       = initial_world.
Proof.
  apply (proj1 (proj2 (proj2 (main_status missing_file_environment
                                sample_arguments)))).
  vm_compute. reflexivity.
Defined.

(** The writes recorded in a trace. *)
Lemma In_write_filter wr (t : list event) :
  In (Write wr) t -> In (Write wr) (filter is_write t).
Proof. intros H. apply filter_In. split; [exact H | reflexivity]. Qed.

(** X17: A command that exits with 0 without [--info] has converted: the writer
    was called exactly once, the size of the output file was read, and the
    path and the formatted size were printed. *)
Theorem command_success_wrote_once :
  forall env a,
    info a = false ->
    status (command env a) = 0 ->
    exists c l wr file_size size,
      converter_of env = Ok c
      /\ create_gif c (pil_installed env) (write_gif env) (arg_duration a)
           (arg_width a) (arg_fps a) (arg_start_time a) (arg_stop_time a)
           (negb (no_optimize a)) initial_world
         = (Ok l, capture (command env a))
      /\ filter is_write (trace (capture (command env a))) = [Write wr]
      /\ getsize env (output_file_of env a) = Some file_size
      /\ Text.format_size file_size = Ok size
      /\ In (Success (output_file_of env a)) (console (command env a))
      /\ In (FileSize size) (console (command env a)).
Proof.
  intros env a Hinfo. unfold command. rewrite Hinfo.
  destruct (converter_of env) as [c|e0]; [|discriminate].
  cbv zeta.
  destruct (Py.float_truediv _ (arg_duration a)) as [speed|e1];
    [|discriminate].
  destruct (create_gif c _ _ _ _ _ _ _ _ initial_world)
    as [[l|e2] w] eqn:Hrun; [|discriminate].
  destruct (getsize env (output_file_of env a)) as [file_size|] eqn:Hsize;
    [|discriminate].
  destruct (Text.format_size file_size) as [size|e3] eqn:Hfmt;
    [|discriminate].
  intros _. simpl capture. simpl console.
  destruct (create_gif_Ok_trace _ _ _ _ _ _ _ _ _ _ _ _ Hrun)
    as (wr & Htrace & _).
  exists c, l, wr, file_size, size.
  split; [reflexivity|]. split; [exact Hrun|]. split.
  { rewrite Htrace. apply (writes_of_Ok_trace []). }
  split; [reflexivity|]. split; [exact Hfmt|].
  split; [right; left; reflexivity | right; right; left; reflexivity].
Qed.

Lemma command_success_wrote_once_witness :
  exists wr,
    filter is_write
      (trace (capture (command Cli.sample_environment Cli.sample_arguments)))
    = [Write wr].
Proof.
  destruct (command_success_wrote_once Cli.sample_environment
              Cli.sample_arguments)
    as (c & l & wr & fs & sz & _ & _ & Hwr & _).
  - reflexivity.
  - vm_compute. reflexivity.
  - exists wr. exact Hwr.
Defined.

(** X18: A command that exits with 1, when the size of the output can be read
    and formatted, either has called no writer, or has called one that
    raised: that call is then the only one, and the error printed last is
    the one the writer raised. With writers that do not raise, a command
    that exits with 1 has called no writer. *)
Theorem command_failure_wrote_nothing :
  forall env a file_size size,
    status (command env a) = 1 ->
    getsize env (output_file_of env a) = Some file_size ->
    Text.format_size file_size = Ok size ->
    (filter is_write (trace (capture (command env a))) = []
     \/ exists wr e printed,
          filter is_write (trace (capture (command env a))) = [Write wr]
          /\ write_gif env wr = Raise e
          /\ console (command env a) = printed ++ [Error e])
    /\ ((forall wr, write_gif env wr = Ok tt) ->
        filter is_write (trace (capture (command env a))) = []).
Proof.
  intros env a file_size size. unfold command.
  destruct (converter_of env) as [c|e0];
    [|intros _ _ _; split; [left|intros _]; reflexivity].
  destruct (info a); [intros _ _ _; split; [left|intros _]; reflexivity|].
  cbv zeta.
  destruct (Py.float_truediv _ (arg_duration a)) as [speed|e1];
    [|intros _ _ _; split; [left|intros _]; reflexivity].
  destruct (create_gif c _ _ _ _ _ _ _ _ initial_world)
    as [[l|e2] w] eqn:Hrun.
  - intros Hstatus Hsize Hfmt. rewrite Hsize, Hfmt in Hstatus.
    discriminate Hstatus.
  - intros _ _ _. unfold failed. cbn [capture console].
    destruct (create_gif_Raise_trace _ _ _ _ _ _ _ _ _ _ _ _ Hrun)
      as [Hnone | (wr & before & Htrace & Hbefore & Hsave & _)].
    + split; [left|intros _]; exact Hnone.
    + assert (Hwrites : filter is_write (trace w) = [Write wr]).
      { rewrite Htrace, filter_app, Hbefore. reflexivity. }
      split.
      * right. exists wr, e2. eexists.
        split; [exact Hwrites|]. split; [exact Hsave | reflexivity].
      * intros Hsaves. rewrite (Hsaves wr) in Hsave. discriminate Hsave.
Qed.

(** Start at 120 s, the end of the sample source: line 63 raises and no
    writer is called. The sample request with a destination that cannot
    be written: the one call of the writer raises. *)
Lemma command_failure_wrote_nothing_witness :
  filter is_write
    (trace (capture
              (command Cli.sample_environment
                 {| video_file := video_file Cli.sample_arguments;
                    output_file := None; arg_duration := 5;
                    arg_width := None; arg_fps := 10; arg_start_time := 120;
                    arg_stop_time := None; no_optimize := false;
                    info := false |})))
  = []
  /\ exists wr printed,
       filter is_write
         (trace (capture
                   (command Cli.read_only_environment Cli.sample_arguments)))
       = [Write wr]
       /\ console (command Cli.read_only_environment Cli.sample_arguments)
          = printed ++ [Error OSError].
Proof.
  eassert (Hfmt : Text.format_size 3000000 = Ok _)
    by (vm_compute; reflexivity).
  split.
  - destruct (command_failure_wrote_nothing Cli.sample_environment
                {| video_file := video_file Cli.sample_arguments;
                   output_file := None; arg_duration := 5;
                   arg_width := None; arg_fps := 10; arg_start_time := 120;
                   arg_stop_time := None; no_optimize := false;
                   info := false |}
                3000000 _ ltac:(vm_compute; reflexivity) eq_refl Hfmt)
      as [_ Hnone].
    apply Hnone. intros wr. reflexivity.
  - destruct (command_failure_wrote_nothing Cli.read_only_environment
                Cli.sample_arguments 3000000 _
                ltac:(vm_compute; reflexivity) eq_refl Hfmt)
      as [[Hnone | (wr & e & printed & Hwr & Hsave & Hconsole)] _].
    + vm_compute in Hnone. discriminate Hnone.
    + exists wr, printed. split; [exact Hwr|].
      injection Hsave as <-. exact Hconsole.
Defined.

(** X19: An output duration of 0 fails on the speed factor of line 221 with
    [ZeroDivisionError]: the command exits with 1 before it has printed the
    plan or touched the capture. *)
Theorem zero_duration_fails_before_the_plan :
  forall env a c,
    converter_of env = Ok c ->
    info a = false ->
    (arg_duration a =? 0)%float = true ->
    command env a = failed [] initial_world ZeroDivisionError.
Proof.
  intros env a c Hc Hinfo Hzero. unfold command. rewrite Hc, Hinfo.
  cbv zeta. unfold Py.float_truediv. rewrite Hzero. reflexivity.
Qed.

Lemma zero_duration_fails_before_the_plan_witness :
  command Cli.sample_environment
    {| video_file := video_file Cli.sample_arguments;
       output_file := None; arg_duration := 0; arg_width := None;
       arg_fps := 10; arg_start_time := 0; arg_stop_time := None;
       no_optimize := false; info := false |}
  = failed [] initial_world ZeroDivisionError.
Proof.
  apply (zero_duration_fails_before_the_plan Cli.sample_environment _
           hd_source).
  - reflexivity.
  - reflexivity.
  - reflexivity.
Defined.

(** X20: [--stop 0]: the plan treats the stop time 0.0 as not given and shows
    the segment up to the end of the source, but the converter gets 0.0 and
    not [None], so for a start time that is not negative line 63 raises
    [ValueError]: the command prints the plan for the whole source and then
    fails, without touching the capture. *)
Theorem stop_zero_plans_the_whole_source_and_fails :
  forall env a c,
    converter_of env = Ok c ->
    info a = false ->
    arg_stop_time a = Some 0%float ->
    (arg_duration a =? 0)%float = false ->
    (0 <=? arg_start_time a)%float = true ->
    (duration c <? 0)%float = false ->
    command env a
    = failed
        [ConversionPlan (video_file a) (arg_start_time a) (duration c)
           (duration c - arg_start_time a)%float (output_file_of env a)
           (arg_duration a)
           ((duration c - arg_start_time a) / arg_duration a)%float
           (if truthy (arg_width a) then arg_width a else None) (arg_fps a)]
        initial_world ValueError.
Proof.
  intros env a c Hc Hinfo Hstop Hdur Hstart Hlen.
  assert (Hspeed : Py.float_truediv
                     (effective_stop_of (arg_stop_time a) (get_video_info c)
                      - arg_start_time a)%float (arg_duration a)
                   = Ok ((duration c - arg_start_time a) / arg_duration a)%float).
  { rewrite Hstop. unfold Py.float_truediv. rewrite Hdur. reflexivity. }
  destruct (command_run env a c _ Hc Hinfo Hspeed) as (plan & -> & ->).
  assert (Hclamp : clamp_stop c (Some 0%float) = 0%float).
  { unfold clamp_stop, Py.min_float. rewrite Hlen. reflexivity. }
  assert (Hraise : time_parameters c (arg_start_time a) (arg_stop_time a)
                   = Raise ValueError).
  { rewrite Hstop. unfold time_parameters. rewrite Hclamp, Hstart.
    reflexivity. }
  unfold create_gif. rewrite (bind_lift_Raise _ _ _ _ Hraise).
  rewrite Hstop. reflexivity.
Qed.

Lemma stop_zero_plans_the_whole_source_and_fails_witness :
  status
    (command Cli.sample_environment
       {| video_file := video_file Cli.sample_arguments;
          output_file := None; arg_duration := 5; arg_width := None;
          arg_fps := 10; arg_start_time := 0; arg_stop_time := Some 0%float;
          no_optimize := false; info := false |})
  = 1.
Proof.
  rewrite (stop_zero_plans_the_whole_source_and_fails
             Cli.sample_environment _ hd_source); reflexivity.
Defined.

(** X21: With [--no-optimize], or without PIL, the only writer the command ever
    calls is [imageio.mimsave], with [loop=0]. *)
Theorem no_optimize_uses_imageio :
  forall env a,
    no_optimize a = true \/ pil_installed env = false ->
    forall wr,
      In (Write wr) (trace (capture (command env a))) ->
      exists frames d, wr = imageio_mimsave frames d 0.
Proof.
  intros env a Hflag wr.
  assert (Hpath : negb (no_optimize a) && pil_installed env = false).
  { destruct Hflag as [-> | ->]; [reflexivity | apply andb_false_r]. }
  unfold command.
  destruct (converter_of env) as [c|e0]; [|intros []].
  destruct (info a); [intros []|].
  cbv zeta.
  destruct (Py.float_truediv _ (arg_duration a)) as [speed|e1];
    [|intros []].
  destruct (create_gif c _ _ _ _ _ _ _ _ initial_world)
    as [[l|e2] w] eqn:Hrun.
  - assert (Hin : In (Write wr) (trace w) ->
                  exists frames d, wr = imageio_mimsave frames d 0).
    { destruct (create_gif_Ok_trace _ _ _ _ _ _ _ _ _ _ _ _ Hrun)
        as (wr0 & Htrace & _ & Hkind).
      intros Hin. apply In_write_filter in Hin.
      rewrite Htrace, (writes_of_Ok_trace []) in Hin.
      destruct Hin as [Heq|[]]. injection Heq as <-.
      rewrite (Hkind Hpath). eexists. eexists. reflexivity. }
    destruct (getsize env (output_file_of env a)) as [file_size|];
      [|exact Hin].
    destruct (Text.format_size file_size); exact Hin.
  - simpl capture. intros Hin. apply In_write_filter in Hin.
    destruct (create_gif_Raise_trace _ _ _ _ _ _ _ _ _ _ _ _ Hrun)
      as [Hnone | (wr0 & before & Htrace & Hbefore & _ & Hkind)].
    + rewrite Hnone in Hin. destruct Hin.
    + rewrite Htrace, filter_app, Hbefore in Hin.
      destruct Hin as [Heq|[]]. injection Heq as <-.
      apply (Hkind Hpath).
Qed.

Lemma no_optimize_uses_imageio_witness :
  exists wr frames d,
    filter is_write
      (trace (capture
                (command Cli.sample_environment
                   {| video_file := video_file Cli.sample_arguments;
                      output_file := None; arg_duration := 0.25;
                      arg_width := None; arg_fps := 10; arg_start_time := 30;
                      arg_stop_time := Some 90%float; no_optimize := true;
                      info := false |})))
    = [Write wr]
    /\ wr = imageio_mimsave frames d 0.
Proof.
  eassert (Hwrites :
             filter is_write
               (trace (capture
                         (command Cli.sample_environment
                            {| video_file := video_file Cli.sample_arguments;
                               output_file := None; arg_duration := 0.25;
                               arg_width := None; arg_fps := 10;
                               arg_start_time := 30;
                               arg_stop_time := Some 90%float;
                               no_optimize := true; info := false |})))
             = [Write _])
    by (vm_compute; reflexivity).
  match type of Hwrites with
  | filter is_write (trace (capture (command ?env ?a))) = [Write ?wr] =>
      assert (Hin : In (Write wr) (trace (capture (command env a))))
        by (apply (filter_In is_write); rewrite Hwrites; left; reflexivity);
      destruct (no_optimize_uses_imageio env a (or_introl eq_refl) wr Hin)
        as (frames & d & Hwr);
      exists wr, frames, d; split; [exact Hwrites | exact Hwr]
  end.
Defined.

End CliFacts.
